(** * SUN4I power HAL (power/power_sun4i.c): model and properties

    The C file is embedded function by function.  Character arrays are
    fixed-length lists of cells, a cell being a defined character or an
    indeterminate byte; the four system calls the file uses (open, read,
    write, close) are answered by a kernel oracle that may depend on the
    whole history of calls, and every call is appended to a trace.
    Undefined behaviour of the C program (a store through an uninitialised
    pointer, an access outside an array, a read of an indeterminate byte by
    a string function) is an explicit outcome of the model.

    Not modelled: logging (ALOGE and the strerror_r calls whose buffer is
    only logged), and the mutex, which is a no-op in a sequential run. *)

From Stdlib Require Import ZArith List Lia Bool Ascii String DecimalString.
Import ListNotations.
Local Open Scope Z_scope.

(** ** Character arrays and the C string functions *)

Module CStr.

(** One byte of an array: [None] is an indeterminate (never written) byte. *)
Definition cell : Type := option ascii.
Definition buffer : Type := list cell.

Definition NUL : ascii := Ascii.zero.
Definition LF : ascii := ascii_of_nat 10.
Definition CR : ascii := ascii_of_nat 13.

Definition chars (s : string) : list ascii := list_ascii_of_string s.

(** A string literal: its characters and the terminator. *)
Definition lit (s : string) : buffer := map Some (chars s) ++ [Some NUL].

(** [static char a[n] = "s"]: the rest of the array is zero-filled. *)
Definition static_array (n : nat) (s : string) : buffer :=
  map Some (chars s) ++ repeat (Some NUL) (n - List.length (chars s)).

(** [char a[n] = { 0 }]. *)
Definition zero_array (n : nat) : buffer := repeat (Some NUL) n.

(** [char a[n];] with automatic storage: every byte indeterminate. *)
Definition auto_array (n : nat) : buffer := repeat None n.

(** [strlen]: [None] when the scan meets an indeterminate byte or leaves
    the array before a terminator. *)
Fixpoint strlen (s : buffer) : option nat :=
  match s with
  | [] => None
  | None :: _ => None
  | Some c :: r =>
      if Ascii.eqb c NUL then Some O
      else match strlen r with Some n => Some (S n) | None => None end
  end.

(** The [n] bytes at the start of an array, as [write] reads them. *)
Fixpoint load (s : buffer) (n : nat) {struct n} : option (list ascii) :=
  match n with
  | O => Some []
  | S n' =>
      match s with
      | Some c :: r =>
          match load r n' with Some l => Some (c :: l) | None => None end
      | _ => None
      end
  end.

(** The string an array holds: the characters before the first NUL. *)
Definition c_string (s : buffer) : option (list ascii) :=
  match strlen s with Some n => load s n | None => None end.

Definition uchar (c : ascii) : Z := Z.of_N (N_of_ascii c).

(** [strncmp]: the difference of the first pair of differing characters,
    0 when [n] characters or a common terminator are reached first. *)
Fixpoint strncmp (s1 s2 : buffer) (n : nat) {struct n} : option Z :=
  match n with
  | O => Some 0
  | S n' =>
      match s1, s2 with
      | Some c1 :: r1, Some c2 :: r2 =>
          if negb (Ascii.eqb c1 c2) then Some (uchar c1 - uchar c2)
          else if Ascii.eqb c1 NUL then Some 0
          else strncmp r1 r2 n'
      | _, _ => None
      end
  end.

(** [memcpy (dst, src, n)]; both arrays must hold [n] bytes. *)
Definition memcpy (dst src : buffer) (n : nat) : option buffer :=
  if ((n <=? List.length src) && (n <=? List.length dst))%nat
  then Some (firstn n src ++ skipn n dst)
  else None.

(** [s[i] = c]. *)
Definition store (s : buffer) (i : nat) (c : ascii) : option buffer :=
  if (i <? List.length s)%nat
  then Some (firstn i s ++ Some c :: skipn (S i) s)
  else None.

(** Bytes written from the start of an array by a library or system call. *)
Definition blit (s : buffer) (data : list ascii) : option buffer :=
  if (List.length data <=? List.length s)%nat
  then Some (map Some data ++ skipn (List.length data) s)
  else None.

Definition is_eol (c : ascii) : bool := Ascii.eqb c LF || Ascii.eqb c CR.

(** The loop of get_scaling_governor,
      len--; while (len >= 0 && (g[len] == '\n' || g[len] == '\r')) g[len--] = '\0';
    with [k] the value of [len] before the decrement. *)
Fixpoint trim (g : buffer) (k : nat) : option buffer :=
  match k with
  | O => Some g
  | S len =>
      match nth_error g len with
      | Some (Some c) =>
          if is_eol c
          then match store g len NUL with
               | Some g' => trim g' len
               | None => None
               end
          else Some g
      | _ => None
      end
  end.

(** [snprintf (buf, size, "%d", z)]. *)
Definition decimal (z : Z) : list ascii :=
  chars (NilZero.string_of_int (Z.to_int z)).

Definition snprintf_d (buf : buffer) (size : nat) (z : Z) : option buffer :=
  blit buf (firstn (size - 1) (decimal z) ++ [NUL]).

(** [strerror_r (errnum, buf, size)] (the POSIX variant of bionic): the
    message, cut to [size - 1] characters, and a terminator. *)
Definition strerror_r (msg : string) (buf : buffer) (size : nat)
  : option buffer :=
  blit buf (firstn (size - 1) (chars msg) ++ [NUL]).

End CStr.
Import CStr.

(** ** 32-bit conversions

    The target (sun4i, ARMv7) has 32-bit [int], [size_t] and pointers. *)

(** An [int] passed where a [size_t] is expected. *)
Definition to_size_t (z : Z) : Z := z mod 2 ^ 32.

(** A pointer cast to [int]. *)
Definition to_int (z : Z) : Z :=
  let u := z mod 2 ^ 32 in if u <? 2 ^ 31 then u else u - 2 ^ 32.

(** ** Paths and constants of the file *)

Definition SCALINGMAXFREQ : string :=
  "/sys/devices/system/cpu/cpu0/cpufreq/scaling_max_freq".
Definition SCALING_GOVERNOR : string :=
  "/sys/devices/system/cpu/cpu0/cpufreq/scaling_governor".
Definition BOOSTPULSE_INTERACTIVE : string :=
  "/sys/devices/system/cpu/cpufreq/interactive/boostpulse".
Definition BOOSTPULSE_ONDEMAND : string :=
  "/sys/devices/system/cpu/cpufreq/ondemand/boostpulse".
Definition BOOSTPULSE_MALI : string :=
  "/sys/devices/platform/mali_dev.0/boostpulse".

Definition MAX_BUF_SZ : nat := 20.

(** [static char screen_off_max_freq[MAX_BUF_SZ] = "696000"]; the file never
    assigns it. *)
Definition screen_off_max_freq : buffer := static_array MAX_BUF_SZ "696000".

(** ** The kernel, the trace and the program state *)

Inductive oflag : Type := O_RDONLY | O_WRONLY.

(** The answer to a system call: failure (the call returns -1 and sets
    errno) or a result. *)
Inductive reply (A : Type) : Type :=
| Fails (errno : Z)
| Gives (a : A).
Arguments Fails {A} errno.
Arguments Gives {A} a.

Inductive event : Type :=
| EvOpen (path : string) (fl : oflag) (r : reply N)
| EvRead (fd : Z) (nbyte : Z) (r : reply (list ascii))
| EvWrite (fd : Z) (data : list ascii) (r : reply N)
| EvClose (fd : Z).

(** The kernel answers each call from the history of calls so far; libc's
    table of error messages comes with it. *)
Record kernel : Type := Kernel {
  k_open : list event -> string -> oflag -> reply N;
  k_read : list event -> Z -> Z -> reply (list ascii);
  k_write : list event -> Z -> list ascii -> reply N;
  k_strerror : Z -> string
}.

(** The statics of the file, the two fields of [struct sun4i_power_module]
    (the one instance, HAL_MODULE_INFO_SYM), errno and the trace. *)
Record state : Type := State {
  scaling_max_freq : buffer;
  current_governor : buffer;
  boostpulse_fd : Z;
  boostpulse_warned : Z;
  errno : Z;
  trace : list event
}.

Definition initial_state : state :=
  {| scaling_max_freq := static_array MAX_BUF_SZ "1008000";
     current_governor := zero_array MAX_BUF_SZ;
     boostpulse_fd := -1;
     boostpulse_warned := 0;
     errno := 0;
     trace := [] |}.

(** A pointer to the module structure: the address of the instance, or the
    indeterminate value of a local pointer that was never assigned. *)
Inductive modref : Type := TheModule | Indeterminate.

Inductive fault : Type :=
| WildPointer        (* access through an indeterminate pointer *)
| OutOfBounds        (* store or system-call transfer outside an array *)
| BadString.         (* string function on an unterminated or indeterminate array *)

Inductive outcome (A : Type) : Type :=
| Done (a : A) (s : state)
| Undefined (why : fault) (s : state).
Arguments Done {A} a s.
Arguments Undefined {A} why s.

Definition M (A : Type) : Type := state -> outcome A.

Definition ret {A} (a : A) : M A := fun s => Done a s.

Definition bind {A B} (m : M A) (k : A -> M B) : M B :=
  fun s => match m s with
           | Done a s' => k a s'
           | Undefined w s' => Undefined w s'
           end.

Definition undefined {A} (w : fault) : M A := fun s => Undefined w s.

Definition lift {A} (w : fault) (o : option A) : M A :=
  match o with Some a => ret a | None => undefined w end.

Declare Scope hal_scope.
Delimit Scope hal_scope with hal.
Notation "x <- m ;; k" := (bind m (fun x => k))
  (at level 61, m at next level, right associativity) : hal_scope.
Notation "' p <- m ;; k" := (bind m (fun x => match x with p => k end))
  (at level 61, p pattern, m at next level, right associativity) : hal_scope.
Notation "m ;; k" := (bind m (fun _ => k))
  (at level 61, right associativity) : hal_scope.
Local Open Scope hal_scope.

Definition log_event (e : event) (s : state) : state :=
  {| scaling_max_freq := scaling_max_freq s;
     current_governor := current_governor s;
     boostpulse_fd := boostpulse_fd s;
     boostpulse_warned := boostpulse_warned s;
     errno := errno s;
     trace := trace s ++ [e] |}.

Definition set_errno (e : Z) (s : state) : state :=
  {| scaling_max_freq := scaling_max_freq s;
     current_governor := current_governor s;
     boostpulse_fd := boostpulse_fd s;
     boostpulse_warned := boostpulse_warned s;
     errno := e;
     trace := trace s |}.

Definition set_scaling_max_freq (b : buffer) : M unit := fun s =>
  Done tt {| scaling_max_freq := b;
             current_governor := current_governor s;
             boostpulse_fd := boostpulse_fd s;
             boostpulse_warned := boostpulse_warned s;
             errno := errno s;
             trace := trace s |}.

Definition set_current_governor (b : buffer) : M unit := fun s =>
  Done tt {| scaling_max_freq := scaling_max_freq s;
             current_governor := b;
             boostpulse_fd := boostpulse_fd s;
             boostpulse_warned := boostpulse_warned s;
             errno := errno s;
             trace := trace s |}.

Definition get {A} (f : state -> A) : M A := fun s => Done (f s) s.

(** [p->boostpulse_fd] and [p->boostpulse_warned], read and written. *)
Definition load_fd (p : modref) : M Z :=
  match p with
  | TheModule => get boostpulse_fd
  | Indeterminate => undefined WildPointer
  end.

Definition load_warned (p : modref) : M Z :=
  match p with
  | TheModule => get boostpulse_warned
  | Indeterminate => undefined WildPointer
  end.

Definition store_fd (p : modref) (v : Z) : M unit :=
  match p with
  | TheModule => fun s =>
      Done tt {| scaling_max_freq := scaling_max_freq s;
                 current_governor := current_governor s;
                 boostpulse_fd := v;
                 boostpulse_warned := boostpulse_warned s;
                 errno := errno s;
                 trace := trace s |}
  | Indeterminate => undefined WildPointer
  end.

Definition store_warned (p : modref) (v : Z) : M unit :=
  match p with
  | TheModule => fun s =>
      Done tt {| scaling_max_freq := scaling_max_freq s;
                 current_governor := current_governor s;
                 boostpulse_fd := boostpulse_fd s;
                 boostpulse_warned := v;
                 errno := errno s;
                 trace := trace s |}
  | Indeterminate => undefined WildPointer
  end.

(** [pthread_mutex_lock] and [pthread_mutex_unlock] in a sequential run. *)
Definition pthread_mutex_lock (p : modref) : M unit :=
  match p with TheModule => ret tt | Indeterminate => undefined WildPointer end.
Definition pthread_mutex_unlock (p : modref) : M unit :=
  match p with TheModule => ret tt | Indeterminate => undefined WildPointer end.

(** Modelled from the spec: the enumeration power_hint_t of
    hardware/power.h, a header that is not part of the repository.  The
    hint kinds are interaction and CPU boost (both boost), vsync, and all
    others. *)
Inductive power_hint_t : Type :=
| POWER_HINT_VSYNC
| POWER_HINT_INTERACTION
| POWER_HINT_CPU_BOOST
| POWER_HINT_OTHER (code : Z).

(** ** System calls *)

Section Hal.

Variable K : kernel.

Definition sys_open (path : string) (fl : oflag) : M Z := fun s =>
  let r := k_open K (trace s) path fl in
  let s' := log_event (EvOpen path fl r) s in
  match r with
  | Fails e => Done (-1) (set_errno e s')
  | Gives fd => Done (Z.of_N fd) s'
  end.

(** [read (fd, s, nbyte)]: the kernel transfers at most [nbyte] bytes to
    the start of [s] and returns their number. *)
Definition sys_read (fd : Z) (s : buffer) (nbyte : Z) : M (Z * buffer) :=
  fun st =>
    match k_read K (trace st) fd nbyte with
    | Fails e =>
        Done (-1, s) (set_errno e (log_event (EvRead fd nbyte (Fails e)) st))
    | Gives bytes =>
        let data := firstn (Z.to_nat nbyte) bytes in
        let st' := log_event (EvRead fd nbyte (Gives data)) st in
        match blit s data with
        | Some s' => Done (Z.of_nat (List.length data), s') st'
        | None => Undefined OutOfBounds st'
        end
    end.

Definition sys_write (fd : Z) (data : list ascii) : M Z := fun s =>
  let r := k_write K (trace s) fd data in
  let s' := log_event (EvWrite fd data r) s in
  match r with
  | Fails e => Done (-1) (set_errno e s')
  | Gives n => Done (Z.of_N n) s'
  end.

Definition sys_close (fd : Z) : M unit := fun s =>
  Done tt (log_event (EvClose fd) s).

(** ** The functions of power_sun4i.c *)

Definition sysfs_read (path : string) (s : buffer) (num_bytes : Z)
  : M (Z * buffer) :=
  fd <- sys_open path O_RDONLY ;;
  if fd <? 0 then ret (-1, s)
  else
    '(count, s1) <- sys_read fd s (to_size_t (num_bytes - 1)) ;;
    '(r, s2) <- (if count <? 0 then ret (-1, s1)
                 else s2 <- lift OutOfBounds (store s1 (Z.to_nat count) NUL) ;;
                      ret (0, s2)) ;;
    sys_close fd ;;
    ret (r, s2).

Definition sysfs_write (path : string) (s : buffer) : M unit :=
  fd <- sys_open path O_WRONLY ;;
  if fd <? 0 then ret tt
  else
    n <- lift BadString (strlen s) ;;
    data <- lift BadString (load s n) ;;
    len <- sys_write fd data ;;
    sys_close fd.

Definition get_scaling_governor (governor : buffer) (size : Z)
  : M (Z * buffer) :=
  '(r, g) <- sysfs_read SCALING_GOVERNOR governor size ;;
  if r =? -1 then ret (-1, g)
  else
    len <- lift BadString (strlen g) ;;
    g' <- lift OutOfBounds (trim g len) ;;
    ret (0, g').

(** [module] is not used by the function; [sun4i] is declared and never
    assigned. *)
Definition sun4i_power_init (module : modref) : M unit :=
  let sun4i := Indeterminate in
  '(r, governor) <- get_scaling_governor (auto_array 80) 80 ;;
  if r <? 0 then
    store_warned sun4i 1
  else
    cur <- get current_governor ;;
    cur' <- lift OutOfBounds (memcpy cur governor MAX_BUF_SZ) ;;
    set_current_governor cur' ;;
    c <- lift BadString (strncmp governor (lit "interactive") 80) ;;
    (if c =? 0 then
       sysfs_write "/sys/devices/system/cpu/cpufreq/interactive/timer_rate"
                   (lit "20000") ;;
       sysfs_write "/sys/devices/system/cpu/cpufreq/interactive/min_sample_time"
                   (lit "60000") ;;
       sysfs_write "/sys/devices/system/cpu/cpufreq/interactive/hispeed_freq"
                   (lit "696000") ;;
       sysfs_write "/sys/devices/system/cpu/cpufreq/interactive/go_hispeed_load"
                   (lit "50") ;;
       sysfs_write "/sys/devices/system/cpu/cpufreq/interactive/above_hispeed_delay"
                   (lit "100000")
     else
       c' <- lift BadString (strncmp governor (lit "ondemand") 80) ;;
       if c' =? 0 then
         sysfs_write "/sys/devices/system/cpu/cpufreq/ondemand/boostfreq"
                     (lit "696000") ;;
         sysfs_write "/sys/devices/system/cpu/cpufreq/ondemand/up_threshold"
                     (lit "70") ;;
         sysfs_write "/sys/devices/system/cpu/cpufreq/ondemand/sampling_rate"
                     (lit "50000")
       else ret tt) ;;
    sysfs_write "/sys/module/mali/parameters/mali_boost_rate" (lit "1200") ;;
    sysfs_write "/sys/module/mali/parameters/mali_boost_duration" (lit "500").

(** The local [module] is passed to sun4i_power_init without having been
    assigned. *)
Definition boostpulse_open (sun4i : modref) : M Z :=
  let module := Indeterminate in
  pthread_mutex_lock sun4i ;;
  fd <- load_fd sun4i ;;
  (if fd <? 0 then
     '(r, governor) <- get_scaling_governor (auto_array 80) 80 ;;
     if r <? 0 then
       store_warned sun4i 1
     else
       cur <- get current_governor ;;
       n <- lift BadString (strlen governor) ;;
       c <- lift BadString (strncmp governor cur n) ;;
       (if negb (c =? 0) then sun4i_power_init module else ret tt) ;;
       c1 <- lift BadString (strncmp governor (lit "interactive") 80) ;;
       (if c1 =? 0 then
          fd' <- sys_open BOOSTPULSE_INTERACTIVE O_WRONLY ;;
          store_fd sun4i fd'
        else
          c2 <- lift BadString (strncmp governor (lit "ondemand") 80) ;;
          if c2 =? 0 then
            fd' <- sys_open BOOSTPULSE_ONDEMAND O_WRONLY ;;
            store_fd sun4i fd'
          else ret tt) ;;
       fd1 <- load_fd sun4i ;;
       w <- load_warned sun4i ;;
       if (fd1 <? 0) && (w =? 0) then store_warned sun4i 1 else ret tt
   else ret tt) ;;
  pthread_mutex_unlock sun4i ;;
  load_fd sun4i.

Definition sun4i_power_set_interactive (module : modref) (on : Z) : M unit :=
  if on =? 0 then
    '(len, buf) <- sysfs_read SCALINGMAXFREQ (auto_array MAX_BUF_SZ)
                              (Z.of_nat MAX_BUF_SZ) ;;
    (if negb (len =? -1) then
       n <- lift BadString (strlen screen_off_max_freq) ;;
       c <- lift BadString (strncmp buf screen_off_max_freq n) ;;
       if negb (c =? 0) then
         smf <- get scaling_max_freq ;;
         smf' <- lift OutOfBounds (memcpy smf buf MAX_BUF_SZ) ;;
         set_scaling_max_freq smf'
       else ret tt
     else ret tt) ;;
    sysfs_write SCALINGMAXFREQ screen_off_max_freq
  else
    smf <- get scaling_max_freq ;;
    sysfs_write SCALINGMAXFREQ smf.

(** [data] is the pointer argument, as the 32-bit number it is cast to. *)
Definition sun4i_power_hint (module : modref) (hint : power_hint_t)
           (data : Z) : M unit :=
  let sun4i := module in
  let boost :=
    fd <- boostpulse_open sun4i ;;
    if 0 <=? fd then
      let duration := if data =? 0 then 1 else to_int data in
      buf <- lift OutOfBounds (snprintf_d (auto_array 80) 80 duration) ;;
      fd' <- load_fd sun4i ;;
      n <- lift BadString (strlen buf) ;;
      text <- lift BadString (load buf n) ;;
      len <- sys_write fd' text ;;
      buf' <- (if len <? 0 then
                 e <- get errno ;;
                 b <- lift OutOfBounds (strerror_r (k_strerror K e) buf 80) ;;
                 pthread_mutex_lock sun4i ;;
                 fd'' <- load_fd sun4i ;;
                 sys_close fd'' ;;
                 store_fd sun4i (-1) ;;
                 store_warned sun4i 0 ;;
                 pthread_mutex_unlock sun4i ;;
                 ret b
               else ret buf) ;;
      sysfs_write BOOSTPULSE_MALI buf'
    else ret tt
  in
  match hint with
  | POWER_HINT_INTERACTION => boost
  | POWER_HINT_CPU_BOOST => boost
  | POWER_HINT_VSYNC => ret tt
  | POWER_HINT_OTHER _ => ret tt
  end.

End Hal.

(** ** Observations on outcomes and traces *)

Definition final {A} (o : outcome A) : state :=
  match o with Done _ s => s | Undefined _ s => s end.

(** The module-level data of a state: everything but errno and the trace. *)
Definition globals (s : state) : buffer * buffer * Z * Z :=
  (scaling_max_freq s, current_governor s, boostpulse_fd s, boostpulse_warned s).

(** The two static arrays have MAX_BUF_SZ bytes. *)
Definition wf_state (s : state) : Prop :=
  List.length (scaling_max_freq s) = MAX_BUF_SZ /\
  List.length (current_governor s) = MAX_BUF_SZ.

(** The events of one call of sysfs_write on [path] with the string [text]:
    a failed open, or open, write of [text], close. *)
Inductive attr_write (path : string) (text : list ascii) : list event -> Prop :=
| aw_unopened (e : Z) :
    attr_write path text [EvOpen path O_WRONLY (Fails e)]
| aw_written (fd : N) (r : reply N) :
    attr_write path text
      [EvOpen path O_WRONLY (Gives fd); EvWrite (Z.of_N fd) text r;
       EvClose (Z.of_N fd)].

(** The events of a sequence of sysfs_write calls, in order. *)
Inductive attr_writes : list (string * string) -> list event -> Prop :=
| aws_nil : attr_writes [] []
| aws_cons (p v : string) (l : list (string * string)) (t1 t2 : list event) :
    attr_write p (chars v) t1 -> attr_writes l t2 ->
    attr_writes ((p, v) :: l) (t1 ++ t2).

(** The events of one call of sysfs_read on [path], indexed by what the
    call obtained: a failed open, or open, read, close. *)
Inductive attr_read (path : string) (nbyte : Z)
  : reply (list ascii) -> list event -> Prop :=
| ar_unopened (e : Z) :
    attr_read path nbyte (Fails e) [EvOpen path O_RDONLY (Fails e)]
| ar_read (fd : N) (r : reply (list ascii)) :
    attr_read path nbyte r
      [EvOpen path O_RDONLY (Gives fd); EvRead (Z.of_N fd) nbyte r;
       EvClose (Z.of_N fd)].

(** The paths a trace opens for writing, and the texts it writes. *)
Fixpoint opened_for_write (t : list event) : list string :=
  match t with
  | [] => []
  | EvOpen p O_WRONLY _ :: t' => p :: opened_for_write t'
  | _ :: t' => opened_for_write t'
  end.

Fixpoint written (t : list event) : list (list ascii) :=
  match t with
  | [] => []
  | EvWrite _ d _ :: t' => d :: written t'
  | _ :: t' => written t'
  end.

Definition is_boost (h : power_hint_t) : bool :=
  match h with
  | POWER_HINT_INTERACTION | POWER_HINT_CPU_BOOST => true
  | _ => false
  end.

(** The characters of a list before its first NUL. *)
Fixpoint until_nul (l : list ascii) : list ascii :=
  match l with
  | [] => []
  | c :: r => if Ascii.eqb c NUL then [] else c :: until_nul r
  end.

(** A string read from a control file is a body that does not end in an
    end-of-line character, followed by end-of-line characters only. *)
Definition ends_in_eol (l : list ascii) : bool :=
  match rev l with c :: _ => is_eol c | [] => false end.

Definition eol_free_end (body : list ascii) : Prop := ends_in_eol body = false.

Definition all_eol (tail : list ascii) : Prop := forallb is_eol tail = true.

Definition interactive_tuning : list (string * string) :=
  [("/sys/devices/system/cpu/cpufreq/interactive/timer_rate", "20000");
   ("/sys/devices/system/cpu/cpufreq/interactive/min_sample_time", "60000");
   ("/sys/devices/system/cpu/cpufreq/interactive/hispeed_freq", "696000");
   ("/sys/devices/system/cpu/cpufreq/interactive/go_hispeed_load", "50");
   ("/sys/devices/system/cpu/cpufreq/interactive/above_hispeed_delay", "100000")]%string.

Definition ondemand_tuning : list (string * string) :=
  [("/sys/devices/system/cpu/cpufreq/ondemand/boostfreq", "696000");
   ("/sys/devices/system/cpu/cpufreq/ondemand/up_threshold", "70");
   ("/sys/devices/system/cpu/cpufreq/ondemand/sampling_rate", "50000")]%string.

Definition gpu_tuning : list (string * string) :=
  [("/sys/module/mali/parameters/mali_boost_rate", "1200");
   ("/sys/module/mali/parameters/mali_boost_duration", "500")]%string.

(** ** A scripted kernel for concrete runs

    The governor file and the max-frequency file hold the given texts
    ([None]: the file cannot be opened for reading); writes to a boost-pulse
    handle fail with EINVAL unless [boost_ok]; every other call succeeds. *)

Definition ENOENT : Z := 2.
Definition EBADF : Z := 9.
Definition EINVAL : Z := 22.

Definition sysfs (governor maxfreq : option string) (boost_ok : bool) : kernel :=
  {| k_open := fun _ p fl =>
       if String.eqb p SCALING_GOVERNOR then
         match governor with Some _ => Gives 3%N | None => Fails ENOENT end
       else if String.eqb p SCALINGMAXFREQ then
         match fl, maxfreq with
         | O_RDONLY, None => Fails ENOENT
         | _, _ => Gives 5%N
         end
       else if String.eqb p BOOSTPULSE_INTERACTIVE
               || String.eqb p BOOSTPULSE_ONDEMAND then Gives 7%N
       else Gives 4%N;
     k_read := fun _ fd _ =>
       match governor, maxfreq with
       | Some g, _ => if fd =? 3 then Gives (chars g)
                      else match maxfreq with
                           | Some f => if fd =? 5 then Gives (chars f)
                                       else Fails EBADF
                           | None => Fails EBADF
                           end
       | None, Some f => if fd =? 5 then Gives (chars f) else Fails EBADF
       | None, None => Fails EBADF
       end;
     k_write := fun _ fd d =>
       if (fd =? 7) && negb boost_ok then Fails EINVAL
       else Gives (N.of_nat (List.length d));
     k_strerror := fun e =>
       if e =? EINVAL then "Invalid argument"%string
       else if e =? ENOENT then "No such file or directory"%string
       else "Unknown error"%string |}.

Definition nl (s : string) : string := (s ++ String LF EmptyString)%string.

Definition k_interactive : kernel :=
  sysfs (Some (nl "interactive")) (Some (nl "1008000")) true.
Definition k_performance : kernel :=
  sysfs (Some (nl "performance")) (Some (nl "1008000")) true.
Definition k_unreadable : kernel := sysfs None None true.
Definition k_boost_broken : kernel :=
  sysfs (Some (nl "interactive")) (Some (nl "1008000")) false.
Definition k_screen_off : kernel :=
  sysfs (Some (nl "interactive")) (Some (nl "696000")) true.
Definition k_underclocked : kernel :=
  sysfs (Some (nl "interactive")) (Some (nl "912000")) true.

(** The read of the current maximum frequency in
    sun4i_power_set_interactive. *)
Definition read_max_freq (K : kernel) : M (Z * buffer) :=
  sysfs_read K SCALINGMAXFREQ (auto_array MAX_BUF_SZ) (Z.of_nat MAX_BUF_SZ).

(** The array a call left behind. *)
Definition out_buffer (o : outcome (Z * buffer)) : buffer :=
  match o with Done (_, b) _ => b | Undefined _ _ => [] end.

(** The text sun4i_power_hint formats into its buffer for the hint
    argument [data]: the decimal digits of the duration, as snprintf cuts
    them to the 80-byte buffer. *)
Definition duration_text (data : Z) : list ascii :=
  firstn 79 (decimal (if data =? 0 then 1 else to_int data)).

(** The text strerror_r leaves in an 80-byte buffer for error [e]. *)
Definition error_text (K : kernel) (e : Z) : list ascii :=
  until_nul (firstn 79 (chars (k_strerror K e))).

(** The boost-pulse file boostpulse_open selects for a governor name. *)
Definition boost_path (name : list ascii) : option string :=
  if list_eq_dec ascii_dec name (chars "interactive")
  then Some BOOSTPULSE_INTERACTIVE
  else if list_eq_dec ascii_dec name (chars "ondemand")
       then Some BOOSTPULSE_ONDEMAND
       else None.

(** [m], run from [s], makes [e] its first system call. *)
Definition begins_with {A} (e : event) (m : M A) (s : state) : Prop :=
  exists t, trace (final (m s)) = trace s ++ e :: t.

(** From [s], every boost hint goes through the open path again: it
    starts by reading the governor, and when the governor read names a
    governor with a boost-pulse file and the hint returns, that file was
    opened for writing during the hint. *)
Definition reopens_from_scratch (K : kernel) (s : state) : Prop :=
  forall hint data,
    is_boost hint = true ->
    (exists r,
        begins_with (EvOpen SCALING_GOVERNOR O_RDONLY r)
                    (sun4i_power_hint K TheModule hint data) s) /\
    (forall g sa name path s',
        get_scaling_governor K (auto_array 80) 80 s = Done (0, g) sa ->
        c_string g = Some name ->
        boost_path name = Some path ->
        sun4i_power_hint K TheModule hint data s = Done tt s' ->
        exists r t1 t2,
          trace s' = trace s ++ t1 ++ EvOpen path O_WRONLY r :: t2).

(** The run of the first interaction hint under [k_boost_broken]: the
    state when the handle has been opened, and after the failed write. *)
Definition st_boost_opened : state :=
  final (boostpulse_open k_boost_broken TheModule initial_state).
Definition st_boost_failed : state :=
  final (sys_write k_boost_broken (boostpulse_fd st_boost_opened)
                   (duration_text 0) st_boost_opened).

(** The attribute list sun4i_power_init selects for a governor name. *)
Definition tuning_for (name : list ascii) : list (string * string) :=
  if list_eq_dec ascii_dec name (chars "interactive") then interactive_tuning
  else if list_eq_dec ascii_dec name (chars "ondemand") then ondemand_tuning
  else [].

(** ** Further observations and scripted kernels *)

(** The descriptors a trace leaves open, given those open before it: a
    successful open adds its descriptor, a close removes it. *)
Fixpoint remove_one (fd : Z) (l : list Z) : list Z :=
  match l with
  | [] => []
  | x :: r => if x =? fd then r else x :: remove_one fd r
  end.

Fixpoint unclosed (t : list event) (acc : list Z) : list Z :=
  match t with
  | [] => acc
  | EvOpen _ _ (Gives fd) :: t' => unclosed t' (Z.of_N fd :: acc)
  | EvClose fd :: t' => unclosed t' (remove_one fd acc)
  | _ :: t' => unclosed t' acc
  end.

(** [p] starts [l]. *)
Fixpoint starts_with (p l : list ascii) : bool :=
  match p, l with
  | [], _ => true
  | c :: p', d :: l' => Ascii.eqb c d && starts_with p' l'
  | _ :: _, [] => false
  end.

(** The array holds a NUL-terminated string of defined characters. *)
Definition holds_string (b : buffer) : Prop :=
  exists text, c_string b = Some text.

Definition k_ondemand : kernel :=
  sysfs (Some (nl "ondemand")) (Some (nl "1008000")) true.
Definition k_overclocked : kernel :=
  sysfs (Some (nl "interactive")) (Some (nl "6960000")) true.

(** A kernel whose governor file can be opened once only: later opens of
    it fail with ENOENT. *)
Definition governor_opened (t : list event) : bool :=
  existsb (fun e => match e with
                    | EvOpen p _ _ => String.eqb p SCALING_GOVERNOR
                    | _ => false
                    end) t.

Definition k_vanishing : kernel :=
  {| k_open := fun h p fl =>
       if String.eqb p SCALING_GOVERNOR && governor_opened h
       then Fails ENOENT
       else k_open k_interactive h p fl;
     k_read := k_read k_interactive;
     k_write := k_write k_interactive;
     k_strerror := k_strerror k_interactive |}.

(** A kernel without boost-pulse files: opening one fails with ENOENT. *)
Definition k_no_boostpulse : kernel :=
  {| k_open := fun h p fl =>
       if String.eqb p BOOSTPULSE_INTERACTIVE
          || String.eqb p BOOSTPULSE_ONDEMAND
       then Fails ENOENT
       else k_open k_interactive h p fl;
     k_read := k_read k_interactive;
     k_write := k_write k_interactive;
     k_strerror := k_strerror k_interactive |}.

(** The paths a trace opens, for reading or writing. *)
Fixpoint opened (t : list event) : list string :=
  match t with
  | [] => []
  | EvOpen p _ _ :: t' => p :: opened t'
  | _ :: t' => opened t'
  end.

(** The state after sun4i_power_init under [k_interactive]. *)
Definition st_tuned : state :=
  final (sun4i_power_init k_interactive TheModule initial_state).

(** A state with the boost-pulse handle 7 open. *)
Definition st_handle : state :=
  final (sun4i_power_hint k_interactive TheModule POWER_HINT_INTERACTION 0
                          initial_state).

(** A kernel whose max-frequency file keeps what was written to it:
    descriptor 5 reads back the last text written to descriptor 5 (at
    first "912000"), followed by a newline. *)
Fixpoint last_written (t : list event) (cur : list ascii) : list ascii :=
  match t with
  | [] => cur
  | EvWrite fd d _ :: t' => last_written t' (if fd =? 5 then d else cur)
  | _ :: t' => last_written t' cur
  end.

Definition k_max_freq_file : kernel :=
  {| k_open := k_open k_interactive;
     k_read := fun h fd n =>
       if fd =? 5 then Gives (last_written h (chars "912000") ++ [LF])
       else k_read k_interactive h fd n;
     k_write := k_write k_interactive;
     k_strerror := k_strerror k_interactive |}.

(** The state after one screen-off call under [k_max_freq_file]. *)
Definition st_screen_off : state :=
  final (sun4i_power_set_interactive k_max_freq_file TheModule 0
                                     initial_state).

(** ** Frame relations

    [frames R m]: running [m] takes every state to an [R]-related one,
    whether it returns or runs into undefined behaviour. *)

Definition frames (R : state -> state -> Prop) {A} (m : M A) : Prop :=
  forall s, R s (final (m s)).

(** What a frame relation must tolerate: one more event, a new errno. *)
Class Io (R : state -> state -> Prop) : Prop := {
  io_refl : forall s, R s s;
  io_trans : forall s1 s2 s3, R s1 s2 -> R s2 s3 -> R s1 s3;
  io_log : forall e s, R s (log_event e s);
  io_errno : forall e s, R s (set_errno e s)
}.

(** The sizes of the two static arrays. *)
Definition shape (s : state) : nat * nat :=
  (List.length (scaling_max_freq s), List.length (current_governor s)).

Definition grows (s s' : state) : Prop := exists t, trace s' = trace s ++ t.
Definition keeps {X} (f : state -> X) (s s' : state) : Prop := f s' = f s.

(** * Properties *)

#[global] Arguments Ascii.eqb : simpl never.

(** ** Strings in arrays *)

Module CStrFacts.

Lemma eqb_NUL_false (c : ascii) : c <> NUL -> Ascii.eqb c NUL = false.
Proof. intro H. now apply Ascii.eqb_neq. Qed.

Lemma until_nul_id (a : list ascii) : ~ In NUL a -> until_nul a = a.
Proof.
  induction a as [|c a IH]; simpl; intro H; [reflexivity|].
  rewrite eqb_NUL_false by (intro E; apply H; left; now symmetry).
  f_equal. apply IH. intro; apply H; now right.
Qed.

Lemma until_nul_free (l : list ascii) : ~ In NUL (until_nul l).
Proof.
  induction l as [|c l IH]; simpl; [tauto|].
  destruct (Ascii.eqb c NUL) eqn:E; simpl; [tauto|].
  intros [H|H]; [|tauto]. subst c. now rewrite Ascii.eqb_refl in E.
Qed.

Lemma until_nul_length (l : list ascii) :
  (List.length (until_nul l) <= List.length l)%nat.
Proof.
  induction l as [|c l IH]; simpl; [lia|].
  destruct (Ascii.eqb c NUL); simpl; lia.
Qed.

Lemma strlen_until (l : list ascii) (r : buffer) :
  strlen (map Some l ++ Some NUL :: r) = Some (List.length (until_nul l)).
Proof.
  induction l as [|c l IH]; simpl; [reflexivity|].
  destruct (Ascii.eqb c NUL); [reflexivity|].
  now rewrite IH.
Qed.

Lemma load_until (l : list ascii) (r : buffer) :
  load (map Some l ++ r) (List.length (until_nul l)) = Some (until_nul l).
Proof.
  induction l as [|c l IH]; simpl; [reflexivity|].
  destruct (Ascii.eqb c NUL); simpl; [reflexivity|].
  now rewrite IH.
Qed.

(** An array that holds characters and then a NUL holds a string. *)
Lemma c_string_until (l : list ascii) (r : buffer) :
  c_string (map Some l ++ Some NUL :: r) = Some (until_nul l).
Proof.
  unfold c_string. rewrite strlen_until. apply load_until.
Qed.

Lemma c_string_intro (a : list ascii) (r : buffer) :
  ~ In NUL a -> c_string (map Some a ++ Some NUL :: r) = Some a.
Proof.
  intro H. rewrite c_string_until. now rewrite until_nul_id.
Qed.

Lemma strlen_inv (g : buffer) (n : nat) :
  strlen g = Some n ->
  exists a r, g = map Some a ++ Some NUL :: r /\ ~ In NUL a /\
              List.length a = n.
Proof.
  revert n. induction g as [|[c|] g IH]; simpl; intros n H; try discriminate.
  destruct (Ascii.eqb c NUL) eqn:E.
  - apply Ascii.eqb_eq in E. subst c. injection H as <-.
    exists [], g. simpl. tauto.
  - destruct (strlen g) as [m|]; [|discriminate]. injection H as <-.
    destruct (IH m eq_refl) as (a & r & -> & Hf & Hl).
    exists (c :: a), r. simpl. repeat split; [|now rewrite Hl].
    intros [H|H]; [|tauto]. subst c. now rewrite Ascii.eqb_refl in E.
Qed.

Lemma c_string_inv (g : buffer) (a : list ascii) :
  c_string g = Some a ->
  ~ In NUL a /\ exists r, g = map Some a ++ Some NUL :: r.
Proof.
  unfold c_string. destruct (strlen g) as [n|] eqn:E; [|discriminate].
  destruct (strlen_inv _ _ E) as (b & r & -> & Hf & <-).
  rewrite <- (until_nul_id b) at 2 by assumption.
  rewrite load_until, until_nul_id by assumption.
  intros [= <-]. split; [assumption|now exists r].
Qed.

Lemma strlen_c_string (g : buffer) (a : list ascii) :
  c_string g = Some a -> strlen g = Some (List.length a).
Proof.
  intro H. destruct (c_string_inv _ _ H) as (Hf & r & ->).
  rewrite strlen_until. now rewrite until_nul_id.
Qed.

End CStrFacts.
Import CStrFacts.

Module CmpFacts.

Lemma uchar_diff (c1 c2 : ascii) : c1 <> c2 -> uchar c1 - uchar c2 <> 0.
Proof.
  intros Hne H. apply Hne.
  rewrite <- (ascii_N_embedding c1), <- (ascii_N_embedding c2).
  f_equal. unfold uchar in H. lia.
Qed.

Ltac step_strncmp := cbn [strncmp map app List.length].

(** Two heads that differ decide the comparison. *)
Lemma strncmp_differ (c1 c2 : ascii) (r1 r2 : buffer) (n : nat) :
  c1 <> c2 ->
  exists z, strncmp (Some c1 :: r1) (Some c2 :: r2) (S n) = Some z /\ z <> 0.
Proof.
  intro H. step_strncmp. rewrite (proj2 (Ascii.eqb_neq c1 c2) H).
  eexists; split; [reflexivity|now apply uchar_diff].
Qed.

Lemma strncmp_same (c : ascii) (r1 r2 : buffer) (n : nat) :
  c <> NUL ->
  strncmp (Some c :: r1) (Some c :: r2) (S n) = strncmp r1 r2 n.
Proof.
  intro H. step_strncmp.
  now rewrite Ascii.eqb_refl, (proj2 (Ascii.eqb_neq c NUL) H).
Qed.

(** Comparison of a string against the first [length p] characters of an
    array: the result is 0 exactly when [p] starts the string. *)
Lemma strncmp_prefix (p : list ascii) :
  ~ In NUL p ->
  forall (a : list ascii) (r1 r2 : buffer),
  exists z,
    strncmp (map Some a ++ Some NUL :: r1) (map Some p ++ r2)
            (List.length p) = Some z /\
    (z = 0 <-> exists r, a = p ++ r).
Proof.
  induction p as [|c p IH]; intros Hp a r1 r2.
  - exists 0. simpl. split; [reflexivity|]. split; [now exists a|reflexivity].
  - assert (Hc : c <> NUL) by (intro E; apply Hp; left; now symmetry).
    assert (Hp' : ~ In NUL p) by (intro; apply Hp; now right).
    destruct a as [|c1 a]; cbn [map app List.length].
    + destruct (strncmp_differ NUL c r1 (map Some p ++ r2) (List.length p))
        as (z & Hz & Hnz); [intro E; now apply Hc|].
      exists z. split; [assumption|].
      split; [intro; contradiction|intros [r H]; discriminate].
    + destruct (Ascii.eqb c1 c) eqn:E.
      * apply Ascii.eqb_eq in E. subst c1.
        rewrite strncmp_same by assumption.
        destruct (IH Hp' a r1 r2) as (z & Hz & Hiff).
        exists z. split; [assumption|]. rewrite Hiff.
        split; intros [r H]; exists r; [now subst|now injection H].
      * apply Ascii.eqb_neq in E.
        destruct (strncmp_differ c1 c (map Some a ++ Some NUL :: r1)
                    (map Some p ++ r2) (List.length p) E) as (z & Hz & Hnz).
        exists z. split; [assumption|].
        split; [intro; contradiction
               |intros [r H]; injection H as H _; contradiction].
Qed.

(** Comparison of a string against a literal, with a bound beyond the
    literal: the result is 0 exactly when the string is the literal. *)
Lemma strncmp_lit (b : list ascii) :
  ~ In NUL b ->
  forall (a : list ascii) (r : buffer) (n : nat),
  ~ In NUL a -> (List.length b < n)%nat ->
  exists z,
    strncmp (map Some a ++ Some NUL :: r) (map Some b ++ [Some NUL]) n
      = Some z /\
    (z = 0 <-> a = b).
Proof.
  induction b as [|c b IH]; intros Hb a r n Ha Hn;
    (destruct n as [|n]; [simpl in Hn; lia|]).
  - destruct a as [|c1 a]; cbn [map app List.length].
    + exists 0. step_strncmp. rewrite Ascii.eqb_refl. simpl. tauto.
    + assert (Hc1 : c1 <> NUL) by (intro E; apply Ha; left; now symmetry).
      destruct (strncmp_differ c1 NUL (map Some a ++ Some NUL :: r) [] n Hc1)
        as (z & Hz & Hnz).
      exists z. split; [assumption|].
      split; [intro; contradiction|discriminate].
  - assert (Hc : c <> NUL) by (intro E; apply Hb; left; now symmetry).
    assert (Hb' : ~ In NUL b) by (intro; apply Hb; now right).
    destruct a as [|c1 a]; cbn [map app List.length].
    + destruct (strncmp_differ NUL c r (map Some b ++ [Some NUL]) n)
        as (z & Hz & Hnz); [intro E; now apply Hc|].
      exists z. split; [assumption|].
      split; [intro; contradiction|discriminate].
    + destruct (Ascii.eqb c1 c) eqn:E.
      * apply Ascii.eqb_eq in E. subst c1.
        rewrite strncmp_same by assumption.
        assert (Ha' : ~ In NUL a) by (intro; apply Ha; now right).
        simpl in Hn.
        destruct (IH Hb' a r n Ha' ltac:(lia)) as (z & Hz & Hiff).
        exists z. split; [assumption|]. rewrite Hiff.
        split; [now intros ->|now intros [= ->]].
      * apply Ascii.eqb_neq in E.
        destruct (strncmp_differ c1 c (map Some a ++ Some NUL :: r)
                    (map Some b ++ [Some NUL]) n E) as (z & Hz & Hnz).
        exists z. split; [assumption|].
        split; [intro; contradiction|intros [= H _]; contradiction].
Qed.

End CmpFacts.
Import CmpFacts.

Module TrimFacts.

Lemma firstn_length_app {A} (l1 l2 : list A) :
  firstn (List.length l1) (l1 ++ l2) = l1.
Proof. induction l1 as [|a l1 IH]; simpl; [now destruct l2|now rewrite IH]. Qed.

Lemma skipn_length_app {A} (l1 l2 : list A) :
  skipn (List.length l1) (l1 ++ l2) = l2.
Proof. induction l1 as [|a l1 IH]; simpl; [reflexivity|exact IH]. Qed.

Lemma store_at (l1 l2 : buffer) (x : cell) (c : ascii) :
  store (l1 ++ x :: l2) (List.length l1) c = Some (l1 ++ Some c :: l2).
Proof.
  unfold store.
  replace (List.length l1 <? List.length (l1 ++ x :: l2))%nat with true
    by (symmetry; apply Nat.ltb_lt; rewrite length_app; simpl; lia).
  rewrite firstn_length_app.
  replace (skipn (S (List.length l1)) (l1 ++ x :: l2)) with l2; [reflexivity|].
  clear. induction l1 as [|a l1 IH]; simpl; [reflexivity|exact IH].
Qed.

Lemma nth_error_at (l1 l2 : buffer) (x : cell) :
  nth_error (l1 ++ x :: l2) (List.length l1) = Some x.
Proof.
  rewrite nth_error_app2 by lia. now rewrite Nat.sub_diag.
Qed.

Lemma repeat_snoc {A} (x : A) (n : nat) (l : list A) :
  repeat x n ++ x :: l = repeat x (S n) ++ l.
Proof.
  induction n as [|n IH]; simpl; [reflexivity|]. now rewrite IH.
Qed.

Lemma ends_in_eol_snoc (b : list ascii) (c : ascii) :
  ends_in_eol (b ++ [c]) = is_eol c.
Proof. unfold ends_in_eol. now rewrite rev_unit. Qed.

Lemma all_eol_snoc (tail : list ascii) (c : ascii) :
  all_eol (tail ++ [c]) <-> all_eol tail /\ is_eol c = true.
Proof.
  unfold all_eol. rewrite forallb_app. simpl.
  rewrite andb_true_iff, andb_true_r. tauto.
Qed.

Lemma split_eol (a : list ascii) :
  exists body tail, a = body ++ tail /\ eol_free_end body /\ all_eol tail.
Proof.
  induction a as [|c a IH] using rev_ind.
  - exists [], []. repeat split.
  - destruct (is_eol c) eqn:E.
    + destruct IH as (body & tail & -> & Hb & Ht).
      exists body, (tail ++ [c]). rewrite app_assoc.
      repeat split; [assumption|]. now apply all_eol_snoc.
    + exists (a ++ [c]), []. rewrite app_nil_r.
      repeat split. unfold eol_free_end. now rewrite ends_in_eol_snoc.
Qed.

(** The loop clears the end-of-line characters at the end of the string
    and nothing else. *)
Lemma trim_spec (body tail : list ascii) (rest : buffer) :
  eol_free_end body -> all_eol tail ->
  trim (map Some body ++ map Some tail ++ Some NUL :: rest)
       (List.length body + List.length tail)
  = Some (map Some body ++ repeat (Some NUL) (List.length tail)
            ++ Some NUL :: rest).
Proof.
  intros Hb. revert rest.
  induction tail as [|c tail IH] using rev_ind; intros rest Ht.
  - simpl. rewrite Nat.add_0_r.
    destruct body as [|c0 body0 _] using rev_ind; [reflexivity|].
    unfold eol_free_end in Hb. rewrite ends_in_eol_snoc in Hb.
    rewrite length_app. simpl. rewrite Nat.add_1_r. simpl.
    rewrite map_app. simpl. rewrite <- app_assoc. simpl.
    rewrite <- (length_map Some body0) at 1.
    rewrite nth_error_at. now rewrite Hb.
  - apply all_eol_snoc in Ht as [Ht Hc'].
    rewrite length_app. simpl.
    replace (List.length body + (List.length tail + 1))%nat
      with (S (List.length body + List.length tail)) by lia.
    simpl. rewrite map_app. simpl.
    rewrite <- app_assoc. simpl. rewrite app_assoc.
    replace (List.length body + List.length tail)%nat
      with (List.length (map Some body ++ map Some tail))
      by (now rewrite length_app, !length_map).
    rewrite nth_error_at, Hc', store_at.
    rewrite <- app_assoc, length_app, !length_map.
    rewrite (IH (Some NUL :: rest) Ht).
    rewrite Nat.add_1_r. now rewrite repeat_snoc.
Qed.

End TrimFacts.
Import TrimFacts.

(** ** Frame rules *)

Module Frame.

#[global] Instance grows_io : Io grows.
Proof.
  split.
  - intro s. exists []. now rewrite app_nil_r.
  - intros s1 s2 s3 [t1 H1] [t2 H2]. exists (t1 ++ t2).
    now rewrite H2, H1, app_assoc.
  - intros e s. now exists [e].
  - intros e s. exists []. simpl. now rewrite app_nil_r.
Qed.

#[global] Instance keeps_globals_io : Io (keeps globals).
Proof. split; unfold keeps; intros; try reflexivity; congruence. Qed.

#[global] Instance keeps_fd_io : Io (keeps boostpulse_fd).
Proof. split; unfold keeps; intros; try reflexivity; congruence. Qed.

Section Rules.

Context (R : state -> state -> Prop) `{Io R}.

Lemma frames_ret {A} (a : A) : frames R (ret a).
Proof. intro s. apply io_refl. Qed.

Lemma frames_undefined {A} (w : fault) : frames R (@undefined A w).
Proof. intro s. apply io_refl. Qed.

Lemma frames_lift {A} (w : fault) (o : option A) : frames R (lift w o).
Proof. destruct o; [apply frames_ret|apply frames_undefined]. Qed.

Lemma frames_get {A} (f : state -> A) : frames R (get f).
Proof. intro s. apply io_refl. Qed.

Lemma frames_bind {A B} (m : M A) (k : A -> M B) :
  frames R m -> (forall a, frames R (k a)) -> frames R (bind m k).
Proof.
  intros Hm Hk s. unfold bind. specialize (Hm s).
  destruct (m s) as [a s'|w s']; simpl in Hm; [|exact Hm].
  eapply io_trans; [exact Hm|apply Hk].
Qed.

Lemma frames_load_fd p : frames R (load_fd p).
Proof. destruct p; [apply frames_get|apply frames_undefined]. Qed.

Lemma frames_load_warned p : frames R (load_warned p).
Proof. destruct p; [apply frames_get|apply frames_undefined]. Qed.

Lemma frames_lock p : frames R (pthread_mutex_lock p).
Proof. destruct p; [apply frames_ret|apply frames_undefined]. Qed.

Lemma frames_unlock p : frames R (pthread_mutex_unlock p).
Proof. destruct p; [apply frames_ret|apply frames_undefined]. Qed.

Variable K : kernel.

Lemma frames_sys_open path fl : frames R (sys_open K path fl).
Proof.
  intro s. unfold sys_open. destruct (k_open K (trace s) path fl); simpl.
  - eapply io_trans; [apply io_log|apply io_errno].
  - apply io_log.
Qed.

Lemma frames_sys_read fd b n : frames R (sys_read K fd b n).
Proof.
  intro s. unfold sys_read. destruct (k_read K (trace s) fd n); simpl.
  - eapply io_trans; [apply io_log|apply io_errno].
  - destruct (blit b _); simpl; apply io_log.
Qed.

Lemma frames_sys_write fd d : frames R (sys_write K fd d).
Proof.
  intro s. unfold sys_write. destruct (k_write K (trace s) fd d); simpl.
  - eapply io_trans; [apply io_log|apply io_errno].
  - apply io_log.
Qed.

Lemma frames_sys_close fd : frames R (sys_close fd).
Proof. intro s. apply io_log. Qed.

End Rules.

Create HintDb frame.
#[global] Hint Resolve frames_ret frames_undefined frames_lift frames_get
  frames_load_fd frames_load_warned frames_lock frames_unlock
  frames_sys_open frames_sys_read frames_sys_write frames_sys_close : frame.

(** Breaks a monadic term into its calls. *)
Ltac frame :=
  repeat match goal with
    | |- Io _ => solve [assumption | typeclasses eauto]
    | |- frames _ (bind _ _) => apply frames_bind; [..|intro]
    | |- frames _ (if ?b then _ else _) => destruct b
    | |- frames _ (match ?x with (_, _) => _ end) => destruct x
    | |- frames _ _ => solve [eauto with frame typeclass_instances]
    end.

Section Calls.

Context (R : state -> state -> Prop) `{Io R}.
Variable K : kernel.

Lemma frames_sysfs_read path b n : frames R (sysfs_read K path b n).
Proof. unfold sysfs_read. frame. Qed.

Lemma frames_sysfs_write path b : frames R (sysfs_write K path b).
Proof. unfold sysfs_write. frame. Qed.

Hint Resolve frames_sysfs_read frames_sysfs_write : frame.

Lemma frames_get_scaling_governor g n :
  frames R (get_scaling_governor K g n).
Proof. unfold get_scaling_governor. frame. Qed.

Hint Resolve frames_get_scaling_governor : frame.

(** sun4i_power_init assigns current_governor only. *)
Lemma frames_sun4i_power_init m :
  (forall b, frames R (set_current_governor b)) ->
  frames R (sun4i_power_init K m).
Proof. intro Hg. unfold sun4i_power_init, store_warned. frame. Qed.

Hint Resolve frames_sun4i_power_init : frame.

Lemma frames_boostpulse_open p :
  frames R (sun4i_power_init K Indeterminate) ->
  (forall v, frames R (store_fd p v)) ->
  (forall v, frames R (store_warned p v)) ->
  frames R (boostpulse_open K p).
Proof. intros Hi Hf Hw. unfold boostpulse_open. frame. Qed.

Lemma frames_sun4i_power_hint p h d :
  frames R (sun4i_power_init K Indeterminate) ->
  (forall v, frames R (store_fd p v)) ->
  (forall v, frames R (store_warned p v)) ->
  frames R (sun4i_power_hint K p h d).
Proof.
  intros Hi Hf Hw. pose proof (frames_boostpulse_open p Hi Hf Hw).
  unfold sun4i_power_hint. destruct h; frame.
Qed.

End Calls.

#[global] Hint Resolve frames_sysfs_read frames_sysfs_write
  frames_get_scaling_governor : frame.

Lemma grows_set_current_governor b : frames grows (set_current_governor b).
Proof. intro s. exists []. simpl. now rewrite app_nil_r. Qed.

Lemma grows_store_fd p v : frames grows (store_fd p v).
Proof.
  destruct p; [|apply frames_undefined; typeclasses eauto].
  intro s. exists []. simpl. now rewrite app_nil_r.
Qed.

Lemma grows_store_warned p v : frames grows (store_warned p v).
Proof.
  destruct p; [|apply frames_undefined; typeclasses eauto].
  intro s. exists []. simpl. now rewrite app_nil_r.
Qed.

Lemma grows_sun4i_power_init K m : frames grows (sun4i_power_init K m).
Proof.
  apply frames_sun4i_power_init; [typeclasses eauto|].
  apply grows_set_current_governor.
Qed.

#[global] Hint Resolve grows_set_current_governor grows_store_fd
  grows_store_warned grows_sun4i_power_init frames_boostpulse_open : frame.

(** The static arrays keep their sizes. *)

#[global] Instance keeps_shape_io : Io (keeps shape).
Proof. split; unfold keeps; intros; try reflexivity; congruence. Qed.

Lemma memcpy_length dst src n d :
  memcpy dst src n = Some d -> List.length d = List.length dst.
Proof.
  unfold memcpy.
  destruct (n <=? List.length src)%nat eqn:E1; [|discriminate].
  destruct (n <=? List.length dst)%nat eqn:E2; [|discriminate].
  apply Nat.leb_le in E1, E2. intros [= <-].
  rewrite length_app, length_firstn, length_skipn. lia.
Qed.

Lemma shape_store_fd p v : frames (keeps shape) (store_fd p v).
Proof. destruct p; intro s; reflexivity. Qed.

Lemma shape_store_warned p v : frames (keeps shape) (store_warned p v).
Proof. destruct p; intro s; reflexivity. Qed.

#[global] Hint Resolve shape_store_fd shape_store_warned : frame.

Lemma shape_sun4i_power_init K m : frames (keeps shape) (sun4i_power_init K m).
Proof.
  unfold sun4i_power_init.
  apply frames_bind; [typeclasses eauto|frame|]. intros [r g].
  destruct (r <? 0); [frame|].
  intro s. unfold bind at 1, get at 1.
  destruct (memcpy (current_governor s) g MAX_BUF_SZ) as [cur'|] eqn:E;
    [|reflexivity].
  unfold bind at 1. cbn [lift ret]. unfold bind at 1.
  cbn [set_current_governor].
  match goal with
  | |- keeps shape s (final (?rest ?s0)) =>
      assert (F : frames (keeps shape) rest) by frame;
      apply (io_trans s s0); [|apply F]
  end.
  unfold keeps, shape. cbn. now rewrite (memcpy_length _ _ _ _ E).
Qed.

#[global] Hint Resolve shape_sun4i_power_init : frame.

Lemma shape_sun4i_power_set_interactive K m on :
  frames (keeps shape) (sun4i_power_set_interactive K m on).
Proof.
  unfold sun4i_power_set_interactive. destruct (on =? 0); [|frame].
  apply frames_bind; [typeclasses eauto|frame|]. intros [len buf].
  apply frames_bind; [typeclasses eauto| |intro; frame].
  destruct (negb (len =? -1)); [|frame].
  apply frames_bind; [typeclasses eauto|frame|]. intro n.
  apply frames_bind; [typeclasses eauto|frame|]. intro c.
  destruct (negb (c =? 0)); [|frame].
  intro s. unfold bind at 1, get at 1.
  destruct (memcpy (scaling_max_freq s) buf MAX_BUF_SZ) as [smf|] eqn:E;
    [|reflexivity].
  unfold bind at 1. cbn [lift ret set_scaling_max_freq final].
  unfold keeps, shape. cbn. now rewrite (memcpy_length _ _ _ _ E).
Qed.

Lemma shape_sun4i_power_hint K h d :
  frames (keeps shape) (sun4i_power_hint K TheModule h d).
Proof.
  apply frames_sun4i_power_hint;
    [typeclasses eauto
    |apply shape_sun4i_power_init
    |intro; apply shape_store_fd
    |intro; apply shape_store_warned].
Qed.

Lemma wf_state_initial : wf_state initial_state.
Proof. split; reflexivity. Qed.

(** [wf_state] is an invariant of the three entry points. *)
Lemma wf_state_invariant K s :
  wf_state s ->
  (forall m, wf_state (final (sun4i_power_init K m s))) /\
  (forall m on, wf_state (final (sun4i_power_set_interactive K m on s))) /\
  (forall h d, wf_state (final (sun4i_power_hint K TheModule h d s))).
Proof.
  intros [H1 H2].
  assert (T : forall s', keeps shape s s' -> wf_state s').
  { intros s' E. unfold keeps, shape in E. injection E as E1 E2.
    split; congruence. }
  split; [|split]; intros; apply T.
  - apply shape_sun4i_power_init.
  - apply shape_sun4i_power_set_interactive.
  - apply shape_sun4i_power_hint.
Qed.

End Frame.
Import Frame.

(** ** The two sysfs helpers *)

Module SysfsFacts.

Lemma of_N_ltb (n : N) : (Z.of_N n <? 0) = false.
Proof. apply Z.ltb_ge. apply N2Z.is_nonneg. Qed.

Lemma load_c_string (s : buffer) (text : list ascii) :
  c_string s = Some text -> load s (List.length text) = Some text.
Proof.
  intro H. pose proof (strlen_c_string _ _ H) as E.
  unfold c_string in H. now rewrite E in H.
Qed.

Section WithKernel.

Variable K : kernel.

(** sysfs_write on an array that holds a string: one best-effort write
    of that string, no effect on the module data, and it returns. *)
Lemma sysfs_write_spec path s text st :
  c_string s = Some text ->
  exists t st',
    sysfs_write K path s st = Done tt st' /\
    attr_write path text t /\
    trace st' = trace st ++ t /\
    globals st' = globals st.
Proof.
  intro Hs. unfold sysfs_write, bind, sys_open.
  destruct (k_open K (trace st) path O_WRONLY) as [e|fd] eqn:Eo.
  - exists [EvOpen path O_WRONLY (Fails e)]. eexists.
    split; [reflexivity|]. split; [constructor|]. split; reflexivity.
  - rewrite of_N_ltb.
    rewrite (strlen_c_string _ _ Hs). cbn [lift ret].
    rewrite (load_c_string _ _ Hs). cbn [lift ret].
    unfold sys_write, sys_close.
    match goal with
    | |- context [k_write K ?h ?f ?d] =>
        destruct (k_write K h f d) as [e|n] eqn:Ew
    end.
    + exists [EvOpen path O_WRONLY (Gives fd);
              EvWrite (Z.of_N fd) text (Fails e); EvClose (Z.of_N fd)].
      eexists. split; [reflexivity|]. split; [constructor|].
      split; [|reflexivity]. simpl. now rewrite <- !app_assoc.
    + exists [EvOpen path O_WRONLY (Gives fd);
              EvWrite (Z.of_N fd) text (Gives n); EvClose (Z.of_N fd)].
      eexists. split; [reflexivity|]. split; [constructor|].
      split; [|reflexivity]. simpl. now rewrite <- !app_assoc.
Qed.

Lemma sysfs_write_then {B} path s text (k : unit -> M B) st :
  c_string s = Some text ->
  exists t st',
    bind (sysfs_write K path s) k st = k tt st' /\
    attr_write path text t /\
    trace st' = trace st ++ t /\
    globals st' = globals st.
Proof.
  intro Hs.
  destruct (sysfs_write_spec path s text st Hs) as (t & st' & E & H).
  exists t, st'. split; [|exact H]. unfold bind. now rewrite E.
Qed.

(** sysfs_read into an array of at least [num_bytes >= 1] bytes: it
    returns; a failed open or read leaves the array as it was; data
    read is followed by a NUL and the rest of the array is untouched. *)
Lemma sysfs_read_spec path s num_bytes st :
  1 <= num_bytes <= Z.of_nat (List.length s) ->
  exists r t st',
    match r with
    | Fails _ => sysfs_read K path s num_bytes st = Done (-1, s) st'
    | Gives d =>
        sysfs_read K path s num_bytes st =
          Done (0, map Some d ++ Some NUL :: skipn (S (List.length d)) s) st'
        /\ Z.of_nat (List.length d) <= num_bytes - 1
    end /\
    attr_read path (to_size_t (num_bytes - 1)) r t /\
    trace st' = trace st ++ t /\
    globals st' = globals st.
Proof.
  intros Hn. unfold sysfs_read, bind, sys_open.
  destruct (k_open K (trace st) path O_RDONLY) as [e|fd] eqn:Eo.
  - exists (Fails e), [EvOpen path O_RDONLY (Fails e)]. eexists.
    split; [reflexivity|]. split; [constructor|]. split; reflexivity.
  - rewrite of_N_ltb. unfold sys_read.
    assert (Hsz : to_size_t (num_bytes - 1) <= num_bytes - 1)
      by (unfold to_size_t; apply Z.mod_le; lia).
    assert (Hsz0 : 0 <= to_size_t (num_bytes - 1))
      by (unfold to_size_t; apply Z.mod_pos_bound; lia).
    match goal with
    | |- context [k_read K ?h ?f ?n] =>
        destruct (k_read K h f n) as [e|bytes] eqn:Er
    end.
    + exists (Fails e).
      exists [EvOpen path O_RDONLY (Gives fd);
              EvRead (Z.of_N fd) (to_size_t (num_bytes - 1)) (Fails e);
              EvClose (Z.of_N fd)].
      eexists. split; [reflexivity|]. split; [constructor|].
      cbn. split; [now rewrite <- !app_assoc|reflexivity].
    + set (d := firstn (Z.to_nat (to_size_t (num_bytes - 1))) bytes).
      assert (Hd' : Z.of_nat (List.length d) <= num_bytes - 1).
      { subst d. rewrite length_firstn. lia. }
      assert (Hd : (List.length d < List.length s)%nat) by lia.
      exists (Gives d).
      exists [EvOpen path O_RDONLY (Gives fd);
              EvRead (Z.of_N fd) (to_size_t (num_bytes - 1)) (Gives d);
              EvClose (Z.of_N fd)].
      unfold blit.
      replace (List.length d <=? List.length s)%nat with true
        by (symmetry; apply Nat.leb_le; lia).
      replace (Z.of_nat (List.length d) <? 0) with false
        by (symmetry; apply Z.ltb_ge; lia).
      rewrite Nat2Z.id.
      destruct (skipn (List.length d) s) as [|x rest] eqn:Es.
      { apply (f_equal (@List.length _)) in Es.
        rewrite length_skipn in Es. simpl in Es. lia. }
      assert (Hrest : rest = skipn (S (List.length d)) s).
      { change (S (List.length d)) with (1 + List.length d)%nat.
        rewrite <- skipn_skipn, Es. reflexivity. }
      replace (store (map Some d ++ x :: rest) (List.length d) NUL)
        with (Some (map Some d ++ Some NUL :: rest))
        by (symmetry; rewrite <- (length_map Some d); apply store_at).
      cbn [lift ret]. rewrite <- Hrest.
      eexists. split; [split; [reflexivity|lia]|].
      split; [constructor|].
      cbn. split; [now rewrite <- !app_assoc|reflexivity].
Qed.

End WithKernel.

End SysfsFacts.
Import SysfsFacts.

(** ** Reading the governor *)

Module GovernorFacts.

Lemma trimmed_length (body tail : list ascii) (rest : buffer) :
  List.length (map Some body ++ repeat (Some NUL) (List.length tail)
                 ++ Some NUL :: rest)
  = List.length (map Some (body ++ tail) ++ Some NUL :: rest).
Proof.
  rewrite !length_app, !length_map, repeat_length, length_app. simpl. lia.
Qed.

Lemma trimmed_c_string (body : list ascii) (n : nat) (rest : buffer) :
  ~ In NUL body ->
  c_string (map Some body ++ repeat (Some NUL) n ++ Some NUL :: rest)
  = Some body.
Proof.
  intro H. destruct n as [|n]; simpl; now apply c_string_intro.
Qed.

Section WithKernel.

Variable K : kernel.

(** After a successful sysfs_read that left the string [body ++ tail]
    in the array, get_scaling_governor returns 0 with exactly the
    characters of [tail] cleared. *)
Lemma get_scaling_governor_trims g size st g1 st1 body tail :
  sysfs_read K SCALING_GOVERNOR g size st = Done (0, g1) st1 ->
  c_string g1 = Some (body ++ tail) ->
  eol_free_end body -> all_eol tail ->
  exists rest,
    g1 = map Some (body ++ tail) ++ Some NUL :: rest /\
    get_scaling_governor K g size st =
      Done (0, map Some body ++ repeat (Some NUL) (List.length tail)
                 ++ Some NUL :: rest) st1.
Proof.
  intros Hr Hs Hb Ht.
  destruct (c_string_inv _ _ Hs) as (Hf & rest & ->).
  exists rest. split; [reflexivity|].
  unfold get_scaling_governor, bind. rewrite Hr. cbn [Z.eqb].
  rewrite (strlen_c_string _ _ Hs). cbn [lift ret].
  rewrite length_app, map_app, <- app_assoc.
  rewrite trim_spec by assumption. reflexivity.
Qed.

(** get_scaling_governor on an array of at least [size >= 1] bytes
    returns, with an array of the same length; its events are those of
    one sysfs_read and it leaves the module data alone. *)
Lemma get_scaling_governor_done g size st :
  1 <= size <= Z.of_nat (List.length g) ->
  exists r g' st',
    get_scaling_governor K g size st = Done (r, g') st' /\
    List.length g' = List.length g /\
    (r = -1 /\ g' = g \/ r = 0 /\ exists a, c_string g' = Some a) /\
    globals st' = globals st /\
    exists rr t,
      attr_read SCALING_GOVERNOR (to_size_t (size - 1)) rr t /\
      trace st' = trace st ++ t.
Proof.
  intro Hn.
  destruct (sysfs_read_spec K SCALING_GOVERNOR g size st Hn)
    as ([e|d] & t & st' & Hr & Hat & Htr & Hgl).
  - exists (-1), g, st'. unfold get_scaling_governor, bind. rewrite Hr.
    split; [reflexivity|]. split; [reflexivity|]. split; [now left|].
    split; [assumption|]. now exists (Fails e), t.
  - destruct Hr as [Hr Hd].
    set (g1 := map Some d ++ Some NUL :: skipn (S (List.length d)) g) in *.
    assert (Hl : List.length g1 = List.length g).
    { subst g1. rewrite length_app, length_map. cbn [List.length].
      rewrite length_skipn. lia. }
    assert (Hs : c_string g1 = Some (until_nul d))
      by apply c_string_until.
    destruct (split_eol (until_nul d)) as (body & tail & Hsplit & Hb & Ht).
    rewrite Hsplit in Hs.
    destruct (get_scaling_governor_trims g size st g1 st' body tail
                Hr Hs Hb Ht) as (rest & Hg1 & Hg).
    eexists 0, _, st'. split; [exact Hg|].
    split; [rewrite trimmed_length, <- Hg1; exact Hl|].
    split.
    { right. split; [reflexivity|]. exists body.
      apply trimmed_c_string.
      intro Hin. apply (until_nul_free d). rewrite Hsplit.
      apply in_or_app. now left. }
    split; [assumption|]. now exists (Gives d), t.
Qed.

Lemma get_scaling_governor_inv g size st r g' st' :
  1 <= size <= Z.of_nat (List.length g) ->
  get_scaling_governor K g size st = Done (r, g') st' ->
  List.length g' = List.length g /\
  (r = -1 /\ g' = g \/ r = 0 /\ exists a, c_string g' = Some a) /\
  globals st' = globals st /\
  exists rr t,
    attr_read SCALING_GOVERNOR (to_size_t (size - 1)) rr t /\
    trace st' = trace st ++ t.
Proof.
  intros Hn H.
  destruct (get_scaling_governor_done g size st Hn)
    as (r0 & g0 & st0 & E & P).
  rewrite H in E. now injection E as -> -> ->.
Qed.

End WithKernel.

End GovernorFacts.
Import GovernorFacts.

(** ** sysfs_read stays inside its buffer *)

(** C9. A call of sysfs_read with a destination array of capacity
    [num_bytes] (at least one byte) returns without leaving the array: the
    array keeps its length, at most [num_bytes] bytes at its start are
    written (everything from some index [n <= num_bytes] on is untouched),
    and when the call reports success the array holds a NUL-terminated
    string shorter than [num_bytes].  get_scaling_governor, which reads
    through sysfs_read and then trims in place, likewise returns with an
    array of the same length. *)
Theorem sysfs_read_within_capacity (K : kernel) (path : string)
        (s : buffer) (num_bytes : Z) (st : state) :
  1 <= num_bytes ->
  Z.of_nat (List.length s) = num_bytes ->
  (exists ret s' st' n,
      sysfs_read K path s num_bytes st = Done (ret, s') st' /\
      List.length s' = List.length s /\
      Z.of_nat n <= num_bytes /\ skipn n s' = skipn n s /\
      (ret = 0 -> exists len, strlen s' = Some len /\ Z.of_nat len < num_bytes))
  /\
  (exists ret g' st',
      get_scaling_governor K s num_bytes st = Done (ret, g') st' /\
      List.length g' = List.length s).
Proof.
  intros Hpos Hcap.
  assert (Hn : 1 <= num_bytes <= Z.of_nat (List.length s)) by lia.
  split.
  - destruct (sysfs_read_spec K path s num_bytes st Hn)
      as ([e|d] & t & st' & Hr & _).
    + exists (-1), s, st', O. split; [exact Hr|].
      split; [reflexivity|]. split; [lia|]. split; [reflexivity|lia].
    + destruct Hr as [Hr Hd].
      eexists 0, _, st', (S (List.length d)). split; [exact Hr|].
      split; [rewrite length_app, length_map; cbn [List.length];
              rewrite length_skipn; lia|].
      split; [lia|]. split.
      * replace (map Some d ++ Some NUL :: skipn (S (List.length d)) s)
          with ((map Some d ++ [Some NUL]) ++ skipn (S (List.length d)) s)
          by (now rewrite <- app_assoc).
        replace (S (List.length d))
          with (List.length (map Some d ++ [Some NUL])) at 1
          by (rewrite length_app, length_map; simpl; lia).
        apply skipn_length_app.
      * intros _. exists (List.length (until_nul d)).
        split; [apply strlen_until|].
        pose proof (until_nul_length d). lia.
  - destruct (get_scaling_governor_done K s num_bytes st Hn)
      as (r & g' & st' & E & Hl & _).
    now exists r, g', st'.
Qed.

(** ** Sequencing *)

Module MonadFacts.

Lemma bind_done {A B} (m : M A) (k : A -> M B) s a s' :
  m s = Done a s' -> bind m k s = k a s'.
Proof. intro H. unfold bind. now rewrite H. Qed.

Lemma bind_inv {A B} (m : M A) (k : A -> M B) s b s' :
  bind m k s = Done b s' ->
  exists a s1, m s = Done a s1 /\ k a s1 = Done b s'.
Proof.
  unfold bind. destruct (m s) as [a s1|w s1]; [|discriminate].
  intro H. now exists a, s1.
Qed.

Lemma bind_assoc {A B C} (m : M A) (f : A -> M B) (k : B -> M C) s :
  bind (bind m f) k s = bind m (fun a => bind (f a) k) s.
Proof. unfold bind. now destruct (m s). Qed.

Lemma bind_ret {A B} (a : A) (k : A -> M B) s : bind (ret a) k s = k a s.
Proof. reflexivity. Qed.

Lemma bind_get {A B} (f : state -> A) (k : A -> M B) s :
  bind (get f) k s = k (f s) s.
Proof. reflexivity. Qed.

(** Runs the pure steps at the head of a sequence. *)
Ltac mstep :=
  repeat (rewrite ?bind_assoc; cbn [lift]; rewrite ?bind_ret, ?bind_get).

End MonadFacts.
Import MonadFacts.

(** ** Traces of attribute writes *)

Module TraceFacts.

Lemma opened_for_write_app t1 t2 :
  opened_for_write (t1 ++ t2) = opened_for_write t1 ++ opened_for_write t2.
Proof.
  induction t1 as [|[p [] r| | |] t1 IH]; simpl; now rewrite ?IH.
Qed.

Lemma attr_write_opened p text t :
  attr_write p text t -> opened_for_write t = [p].
Proof. now intros []. Qed.

Lemma attr_read_opened p n r t :
  attr_read p n r t -> opened_for_write t = [].
Proof. now intros []. Qed.

(** A sequence of sysfs_write calls opens exactly its paths, in order. *)
Lemma attr_writes_opened l t :
  attr_writes l t -> opened_for_write t = map fst l.
Proof.
  induction 1 as [|p v l t1 t2 H1 _ IH]; [reflexivity|].
  rewrite opened_for_write_app, (attr_write_opened _ _ _ H1), IH.
  reflexivity.
Qed.

Lemma nul_free_chars (s : string) :
  forallb (fun c => negb (Ascii.eqb c NUL)) (chars s) = true ->
  ~ In NUL (chars s).
Proof.
  intros H Hin. rewrite forallb_forall in H. specialize (H _ Hin).
  now rewrite Ascii.eqb_refl in H.
Qed.

End TraceFacts.
Import TraceFacts.

(** ** Initialisation *)

Module InitFacts.

Section WithKernel.

Variable K : kernel.

(** Runs the next sysfs_write of a sequence. *)
Ltac next_write t st' Haw Htr Hgl :=
  rewrite ?bind_assoc;
  match goal with
  | |- context [bind (sysfs_write K ?p (lit ?v)) ?k ?st] =>
      let E := fresh "E" in
      destruct (sysfs_write_then K p (lit v) (chars v) k st eq_refl)
        as (t & st' & E & Haw & Htr & Hgl);
      rewrite E; clear E
  end.

(** sun4i_power_init once the governor was read: the name is cached,
    the tuning of the governor and then of the GPU is written, and
    nothing else of the module data changes. *)
Lemma sun4i_power_init_tunes m st g st1 name :
  wf_state st ->
  get_scaling_governor K (auto_array 80) 80 st = Done (0, g) st1 ->
  c_string g = Some name ->
  exists st' tr tw rr,
    sun4i_power_init K m st = Done tt st' /\
    trace st' = trace st ++ tr ++ tw /\
    attr_read SCALING_GOVERNOR 79 rr tr /\
    attr_writes (tuning_for name ++ gpu_tuning) tw /\
    boostpulse_fd st' = boostpulse_fd st /\
    boostpulse_warned st' = boostpulse_warned st /\
    scaling_max_freq st' = scaling_max_freq st.
Proof.
  intros [Hw1 Hw2] Hg Hs.
  assert (Hn : 1 <= 80 <= Z.of_nat (List.length (auto_array 80)))
    by (cbn; lia).
  destruct (get_scaling_governor_inv K _ _ _ _ _ _ Hn Hg)
    as (Hl & _ & Hgl & rr & tr & Hat & Htr).
  change (to_size_t (80 - 1)) with 79 in Hat.
  destruct (c_string_inv _ _ Hs) as (Hf & rest & Hgeq).
  unfold sun4i_power_init. rewrite (bind_done _ _ _ _ _ Hg).
  cbn [Z.ltb Z.compare]. unfold bind at 1, get at 1.
  assert (Hcur : List.length (current_governor st1) = MAX_BUF_SZ).
  { unfold globals in Hgl. injection Hgl as _ -> _ _. exact Hw2. }
  unfold memcpy at 1.
  replace ((MAX_BUF_SZ <=? List.length g)%nat
           && (MAX_BUF_SZ <=? List.length (current_governor st1))%nat)
    with true
    by (rewrite Hl, Hcur; reflexivity).
  unfold bind at 1. cbn [lift ret]. unfold bind at 1.
  cbn [set_current_governor].
  match goal with
  | |- context [bind _ _ ?s0] => set (sc := s0)
  end.
  assert (Hsc : trace sc = trace st ++ tr) by exact Htr.
  assert (Hfd : boostpulse_fd sc = boostpulse_fd st)
    by (unfold globals in Hgl; now injection Hgl).
  assert (Hwd : boostpulse_warned sc = boostpulse_warned st)
    by (unfold globals in Hgl; now injection Hgl).
  assert (Hmf : scaling_max_freq sc = scaling_max_freq st)
    by (unfold globals in Hgl; now injection Hgl).
  clearbody sc.
  destruct (strncmp_lit (chars "interactive")
              ltac:(now apply nul_free_chars) name rest 80 Hf
              ltac:(cbn; lia)) as (c & Hc & Hciff).
  destruct (strncmp_lit (chars "ondemand")
              ltac:(now apply nul_free_chars) name rest 80 Hf
              ltac:(cbn; lia)) as (c' & Hc' & Hc'iff).
  change (map Some (chars "interactive") ++ [Some NUL])
    with (lit "interactive") in Hc.
  change (map Some (chars "ondemand") ++ [Some NUL])
    with (lit "ondemand") in Hc'.
  rewrite <- Hgeq in Hc, Hc'.
  unfold bind at 1. rewrite Hc. cbn [lift ret].
  unfold tuning_for.
  destruct (list_eq_dec ascii_dec name (chars "interactive")) as [En|En].
  - rewrite (proj2 Hciff En). cbn [Z.eqb].
    next_write t1 s1 A1 T1 G1. next_write t2 s2 A2 T2 G2.
    next_write t3 s3 A3 T3 G3. next_write t4 s4 A4 T4 G4.
    next_write t5 s5 A5 T5 G5. next_write t6 s6 A6 T6 G6.
    destruct (sysfs_write_spec K
                "/sys/module/mali/parameters/mali_boost_duration"
                (lit "500") (chars "500") s6 eq_refl)
      as (t7 & s7 & E7 & A7 & T7 & G7).
    rewrite E7.
    exists s7, tr, (t1 ++ t2 ++ t3 ++ t4 ++ t5 ++ t6 ++ t7 ++ []), rr.
    split; [reflexivity|].
    split; [rewrite T7, T6, T5, T4, T3, T2, T1, Hsc, app_nil_r;
            now rewrite <- !app_assoc|].
    split; [assumption|].
    split; [repeat (constructor; [assumption|]); constructor|].
    unfold globals in *.
    repeat split; congruence.
  - assert (Hcz : (c =? 0) = false)
      by (apply Z.eqb_neq; intro Hz; now apply En, Hciff).
    rewrite Hcz. rewrite ?bind_assoc. unfold bind at 1.
    rewrite Hc'. cbn [lift ret].
    destruct (list_eq_dec ascii_dec name (chars "ondemand")) as [Eo|Eo].
    + rewrite (proj2 Hc'iff Eo). cbn [Z.eqb].
      next_write t1 s1 A1 T1 G1. next_write t2 s2 A2 T2 G2.
      next_write t3 s3 A3 T3 G3. next_write t6 s6 A6 T6 G6.
      destruct (sysfs_write_spec K
                  "/sys/module/mali/parameters/mali_boost_duration"
                  (lit "500") (chars "500") s6 eq_refl)
        as (t7 & s7 & E7 & A7 & T7 & G7).
      rewrite E7.
      exists s7, tr, (t1 ++ t2 ++ t3 ++ t6 ++ t7 ++ []), rr.
      split; [reflexivity|].
      split; [rewrite T7, T6, T3, T2, T1, Hsc, app_nil_r;
              now rewrite <- !app_assoc|].
      split; [assumption|].
      split; [repeat (constructor; [assumption|]); constructor|].
      unfold globals in *.
      repeat split; congruence.
    + assert (Hcz' : (c' =? 0) = false)
        by (apply Z.eqb_neq; intro Hz; now apply Eo, Hc'iff).
      rewrite Hcz'. unfold bind at 1. cbn [ret].
      next_write t6 s6 A6 T6 G6.
      destruct (sysfs_write_spec K
                  "/sys/module/mali/parameters/mali_boost_duration"
                  (lit "500") (chars "500") s6 eq_refl)
        as (t7 & s7 & E7 & A7 & T7 & G7).
      rewrite E7.
      exists s7, tr, (t6 ++ t7 ++ []), rr.
      split; [reflexivity|].
      split; [rewrite T7, T6, Hsc, app_nil_r; now rewrite <- !app_assoc|].
      split; [assumption|].
      split; [repeat (constructor; [assumption|]); constructor|].
      unfold globals in *.
      repeat split; congruence.
Qed.

End WithKernel.

End InitFacts.
Import InitFacts.

(** C6. When the governor reads as "interactive", sun4i_power_init
    returns, and after the read of the governor file its events are exactly
    the seven best-effort writes, in order: timer_rate "20000",
    min_sample_time "60000", hispeed_freq "696000", go_hispeed_load "50",
    above_hispeed_delay "100000", then mali_boost_rate "1200" and
    mali_boost_duration "500".  The paths the call opens for writing are
    those seven, and none of them is an on-demand tuning path. *)
Theorem init_interactive_tuning (K : kernel) (m : modref) (st st1 : state)
        (g : buffer) :
  wf_state st ->
  get_scaling_governor K (auto_array 80) 80 st = Done (0, g) st1 ->
  c_string g = Some (chars "interactive") ->
  exists st' tr tw rr,
    sun4i_power_init K m st = Done tt st' /\
    trace st' = trace st ++ tr ++ tw /\
    attr_read SCALING_GOVERNOR 79 rr tr /\
    attr_writes (interactive_tuning ++ gpu_tuning) tw /\
    opened_for_write (tr ++ tw) = map fst (interactive_tuning ++ gpu_tuning) /\
    (forall p, In p (map fst ondemand_tuning) ->
               ~ In p (opened_for_write (tr ++ tw))).
Proof.
  intros Hwf Hg Hs.
  destruct (sun4i_power_init_tunes K m st g st1 _ Hwf Hg Hs)
    as (st' & tr & tw & rr & E & Htr & Har & Haw & _).
  change (tuning_for (chars "interactive")) with interactive_tuning in Haw.
  assert (Ho : opened_for_write (tr ++ tw)
               = map fst (interactive_tuning ++ gpu_tuning)).
  { rewrite opened_for_write_app, (attr_read_opened _ _ _ _ Har).
    now rewrite (attr_writes_opened _ _ Haw). }
  exists st', tr, tw, rr. repeat (split; [assumption|]).
  intros p Hp Hin. rewrite Ho in Hin. cbn in Hp, Hin.
  repeat (destruct Hp as [<-|Hp]; [intuition discriminate|]).
  exact Hp.
Qed.

Lemma init_interactive_tuning_witness :
  wf_state initial_state /\
  c_string (out_buffer (get_scaling_governor k_interactive (auto_array 80) 80
                          initial_state))
    = Some (chars "interactive") /\
  exists st' tr tw rr,
    sun4i_power_init k_interactive TheModule initial_state = Done tt st' /\
    trace st' = trace initial_state ++ tr ++ tw /\
    attr_read SCALING_GOVERNOR 79 rr tr /\
    attr_writes (interactive_tuning ++ gpu_tuning) tw /\
    opened_for_write (tr ++ tw) = map fst (interactive_tuning ++ gpu_tuning) /\
    (forall p, In p (map fst ondemand_tuning) ->
               ~ In p (opened_for_write (tr ++ tw))).
Proof.
  split; [split; reflexivity|]. split; [reflexivity|].
  apply (init_interactive_tuning k_interactive TheModule initial_state
           (final (get_scaling_governor k_interactive (auto_array 80) 80
                     initial_state))
           (out_buffer (get_scaling_governor k_interactive (auto_array 80) 80
                          initial_state))).
  - split; reflexivity.
  - reflexivity.
  - reflexivity.
Defined.

(** C8. When the governor reads as a name that is neither "interactive"
    nor "ondemand", sun4i_power_init returns, and after the read of the
    governor file its events are exactly the two best-effort GPU writes,
    mali_boost_rate "1200" and mali_boost_duration "500": the paths the
    call opens for writing are those two, so no governor tuning path is
    written. *)
Theorem init_unrecognised_governor (K : kernel) (m : modref) (st st1 : state)
        (g : buffer) (name : list ascii) :
  wf_state st ->
  get_scaling_governor K (auto_array 80) 80 st = Done (0, g) st1 ->
  c_string g = Some name ->
  name <> chars "interactive" -> name <> chars "ondemand" ->
  exists st' tr tw rr,
    sun4i_power_init K m st = Done tt st' /\
    trace st' = trace st ++ tr ++ tw /\
    attr_read SCALING_GOVERNOR 79 rr tr /\
    attr_writes gpu_tuning tw /\
    opened_for_write (tr ++ tw) = map fst gpu_tuning.
Proof.
  intros Hwf Hg Hs Hni Hno.
  destruct (sun4i_power_init_tunes K m st g st1 _ Hwf Hg Hs)
    as (st' & tr & tw & rr & E & Htr & Har & Haw & _).
  unfold tuning_for in Haw.
  destruct (list_eq_dec ascii_dec name (chars "interactive")); [contradiction|].
  destruct (list_eq_dec ascii_dec name (chars "ondemand")); [contradiction|].
  cbn [app] in Haw.
  exists st', tr, tw, rr. repeat (split; [assumption|]).
  rewrite opened_for_write_app, (attr_read_opened _ _ _ _ Har).
  now rewrite (attr_writes_opened _ _ Haw).
Qed.

Lemma init_unrecognised_governor_witness :
  wf_state initial_state /\
  c_string (out_buffer (get_scaling_governor k_performance (auto_array 80) 80
                          initial_state))
    = Some (chars "performance") /\
  exists st' tr tw rr,
    sun4i_power_init k_performance TheModule initial_state = Done tt st' /\
    trace st' = trace initial_state ++ tr ++ tw /\
    attr_read SCALING_GOVERNOR 79 rr tr /\
    attr_writes gpu_tuning tw /\
    opened_for_write (tr ++ tw) = map fst gpu_tuning.
Proof.
  split; [split; reflexivity|]. split; [reflexivity|].
  apply (init_unrecognised_governor k_performance TheModule initial_state
           (final (get_scaling_governor k_performance (auto_array 80) 80
                     initial_state))
           (out_buffer (get_scaling_governor k_performance (auto_array 80) 80
                          initial_state))
           (chars "performance")).
  - split; reflexivity.
  - reflexivity.
  - reflexivity.
  - discriminate.
  - discriminate.
Defined.

(** C2. When the governor cannot be read, sun4i_power_init does not set
    the warned flag of the module and does not return: the flag is stored
    through the local pointer [sun4i], which the function never assigns,
    and the run ends in undefined behaviour right after the read.  Up to
    that point the module data is unchanged and nothing was opened for
    writing. *)
Theorem init_unreadable_governor (K : kernel) (m : modref) (st st1 : state)
        (r : Z) (g : buffer) :
  get_scaling_governor K (auto_array 80) 80 st = Done (r, g) st1 ->
  r < 0 ->
  sun4i_power_init K m st = Undefined WildPointer st1 /\
  globals st1 = globals st /\
  opened_for_write (trace st1) = opened_for_write (trace st).
Proof.
  intros Hg Hr.
  assert (Hn : 1 <= 80 <= Z.of_nat (List.length (auto_array 80)))
    by (cbn; lia).
  destruct (get_scaling_governor_inv K _ _ _ _ _ _ Hn Hg)
    as (_ & _ & Hgl & rr & tr & Hat & Htr).
  split; [|split; [assumption|]].
  - unfold sun4i_power_init. rewrite (bind_done _ _ _ _ _ Hg).
    apply Z.ltb_lt in Hr. now rewrite Hr.
  - rewrite Htr, opened_for_write_app, (attr_read_opened _ _ _ _ Hat).
    apply app_nil_r.
Qed.

Lemma init_unreadable_governor_witness :
  get_scaling_governor k_unreadable (auto_array 80) 80 initial_state
    = Done (-1, auto_array 80)
        (final (get_scaling_governor k_unreadable (auto_array 80) 80
                  initial_state)) /\
  sun4i_power_init k_unreadable TheModule initial_state
    = Undefined WildPointer
        (final (get_scaling_governor k_unreadable (auto_array 80) 80
                  initial_state)) /\
  boostpulse_warned
    (final (sun4i_power_init k_unreadable TheModule initial_state)) = 0.
Proof.
  split; [reflexivity|].
  destruct (init_unreadable_governor k_unreadable TheModule initial_state
              (final (get_scaling_governor k_unreadable (auto_array 80) 80
                        initial_state))
              (-1) (auto_array 80) eq_refl ltac:(lia)) as (E & _ & _).
  split; [exact E|]. reflexivity.
Defined.

(** ** Screen off and on *)

Module InteractiveFacts.

Lemma screen_off_string : c_string screen_off_max_freq = Some (chars "696000").
Proof. reflexivity. Qed.

Lemma screen_off_shape :
  screen_off_max_freq = map Some (chars "696000") ++ repeat (Some NUL) 14.
Proof. reflexivity. Qed.

Section WithKernel.

Variable K : kernel.

Lemma maxfreq_read_inv st r b st1 :
  read_max_freq K st = Done (r, b) st1 ->
  globals st1 = globals st /\
  List.length b = MAX_BUF_SZ /\
  (r = -1 \/ r = 0 /\ exists text, c_string b = Some text).
Proof.
  intro H. unfold read_max_freq in H.
  assert (Hn : 1 <= Z.of_nat MAX_BUF_SZ
               <= Z.of_nat (List.length (auto_array MAX_BUF_SZ)))
    by (cbn; lia).
  destruct (sysfs_read_spec K SCALINGMAXFREQ _ _ st Hn)
    as ([e|d] & t & st' & Hr & _ & _ & Hgl).
  - rewrite H in Hr. injection Hr as -> -> ->.
    split; [assumption|]. split; [reflexivity|now left].
  - destruct Hr as [Hr Hd]. rewrite H in Hr. injection Hr as -> -> ->.
    split; [assumption|]. split.
    + rewrite length_app, length_map. cbn [List.length].
      rewrite length_skipn. cbn [List.length].
      unfold MAX_BUF_SZ in *. lia.
    + right. split; [reflexivity|]. eexists. apply c_string_until.
Qed.

(** Screen off, when the read of the current maximum failed or gave a
    text that starts with the screen-off frequency: the saved
    frequency stays, the screen-off frequency is written. *)
Lemma screen_off_keeps m st r b st1 :
  read_max_freq K st = Done (r, b) st1 ->
  (r <> -1 -> exists rest, c_string b = Some (chars "696000" ++ rest)) ->
  exists st' t,
    sun4i_power_set_interactive K m 0 st = Done tt st' /\
    trace st' = trace st1 ++ t /\
    attr_write SCALINGMAXFREQ (chars "696000") t /\
    globals st' = globals st.
Proof.
  intros Hr Hpre.
  destruct (maxfreq_read_inv _ _ _ _ Hr) as (Hgl & _ & _).
  unfold sun4i_power_set_interactive. cbn [Z.eqb].
  unfold read_max_freq in Hr.
  rewrite (bind_done _ _ _ _ _ Hr).
  assert (Hskip :
    forall k : unit -> M unit,
      bind (if negb (r =? -1)
            then
              n <- lift BadString (strlen screen_off_max_freq) ;;
              c <- lift BadString (strncmp b screen_off_max_freq n) ;;
              if negb (c =? 0)
              then smf <- get scaling_max_freq ;;
                   smf' <- lift OutOfBounds (memcpy smf b MAX_BUF_SZ) ;;
                   set_scaling_max_freq smf'
              else ret tt
            else ret tt) k st1 = k tt st1).
  { intro k. destruct (r =? -1) eqn:Er; [reflexivity|].
    apply Z.eqb_neq in Er. destruct (Hpre Er) as (rest & Hs).
    destruct (c_string_inv _ _ Hs) as (Hf & tl & ->).
    destruct (strncmp_prefix (chars "696000")
                ltac:(now apply nul_free_chars)
                (chars "696000" ++ rest) tl (repeat (Some NUL) 14))
      as (z & Hz & Hziff).
    rewrite <- screen_off_shape in Hz.
    assert (z = 0) as -> by (apply Hziff; now exists rest).
    cbn [negb].
    change (strlen screen_off_max_freq) with (Some 6%nat).
    change (List.length (chars "696000")) with 6%nat in Hz.
    mstep. rewrite Hz. mstep. reflexivity. }
  rewrite Hskip.
  destruct (sysfs_write_spec K SCALINGMAXFREQ screen_off_max_freq _ st1
              screen_off_string) as (t & st' & E & Haw & Htr & Hgl').
  exists st', t. repeat split; try assumption. congruence.
Qed.

(** Screen off, when the read gave a text that does not start with the
    screen-off frequency: the array read becomes the saved frequency. *)
Lemma screen_off_saves m st b st1 text :
  wf_state st ->
  read_max_freq K st = Done (0, b) st1 ->
  c_string b = Some text ->
  (forall rest, text <> chars "696000" ++ rest) ->
  exists st' t,
    sun4i_power_set_interactive K m 0 st = Done tt st' /\
    trace st' = trace st1 ++ t /\
    attr_write SCALINGMAXFREQ (chars "696000") t /\
    scaling_max_freq st' = b /\
    current_governor st' = current_governor st /\
    boostpulse_fd st' = boostpulse_fd st /\
    boostpulse_warned st' = boostpulse_warned st.
Proof.
  intros [Hw _] Hr Hs Hnp.
  destruct (maxfreq_read_inv _ _ _ _ Hr) as (Hgl & Hlb & _).
  unfold sun4i_power_set_interactive. cbn [Z.eqb].
  unfold read_max_freq in Hr.
  rewrite (bind_done _ _ _ _ _ Hr). cbn [Z.eqb negb].
  destruct (c_string_inv _ _ Hs) as (Hf & tl & Hb).
  destruct (strncmp_prefix (chars "696000")
              ltac:(now apply nul_free_chars)
              text tl (repeat (Some NUL) 14))
    as (z & Hz & Hziff).
  rewrite <- screen_off_shape, <- Hb in Hz.
  assert (Hnz : (z =? 0) = false).
  { apply Z.eqb_neq. intro E. apply Hziff in E as (rest & E).
    now apply (Hnp rest). }
  change (strlen screen_off_max_freq) with (Some 6%nat).
  change (List.length (chars "696000")) with 6%nat in Hz.
  mstep. rewrite Hz. mstep. rewrite Hnz. cbn [negb]. mstep.
  assert (Hl1 : List.length (scaling_max_freq st1) = MAX_BUF_SZ).
  { unfold globals in Hgl. injection Hgl as -> _ _ _. exact Hw. }
  assert (Hcp : memcpy (scaling_max_freq st1) b MAX_BUF_SZ = Some b).
  { unfold memcpy. rewrite Hlb, Hl1. cbn [Nat.leb MAX_BUF_SZ andb].
    rewrite <- Hlb at 1. rewrite firstn_all.
    rewrite <- Hl1 at 1. now rewrite skipn_all, app_nil_r. }
  rewrite Hcp. mstep. unfold bind at 1. cbn [set_scaling_max_freq].
  match goal with
  | |- context [sysfs_write K _ _ ?s0] => set (sc := s0)
  end.
  destruct (sysfs_write_spec K SCALINGMAXFREQ screen_off_max_freq _ sc
              screen_off_string) as (t & st' & E & Haw & Htr & Hgl').
  exists st', t. split; [exact E|]. split; [exact Htr|].
  split; [exact Haw|].
  unfold globals in Hgl, Hgl'. subst sc. cbn in Hgl'.
  injection Hgl' as -> -> -> ->. injection Hgl as _ -> -> ->.
  repeat split.
Qed.

(** Screen on: the saved frequency is written. *)
Lemma screen_on_writes m on st text :
  on <> 0 ->
  c_string (scaling_max_freq st) = Some text ->
  exists st' t,
    sun4i_power_set_interactive K m on st = Done tt st' /\
    trace st' = trace st ++ t /\
    attr_write SCALINGMAXFREQ text t /\
    globals st' = globals st.
Proof.
  intros Hon Hs. unfold sun4i_power_set_interactive.
  apply Z.eqb_neq in Hon. rewrite Hon.
  rewrite bind_get.
  destruct (sysfs_write_spec K SCALINGMAXFREQ _ _ st Hs)
    as (t & st' & E & Haw & Htr & Hgl).
  now exists st', t.
Qed.

End WithKernel.

End InteractiveFacts.
Import InteractiveFacts.

(** C10. When the read of the current maximum frequency fails,
    sun4i_power_set_interactive with the screen off leaves the saved
    frequency array as it was and still makes the best-effort write of the
    screen-off frequency "696000" to the max-frequency file. *)
Theorem screen_off_read_failure (K : kernel) (m : modref) (st st1 : state)
        (b : buffer) :
  read_max_freq K st = Done (-1, b) st1 ->
  exists st' t,
    sun4i_power_set_interactive K m 0 st = Done tt st' /\
    scaling_max_freq st' = scaling_max_freq st /\
    trace st' = trace st1 ++ t /\
    attr_write SCALINGMAXFREQ (chars "696000") t.
Proof.
  intro Hr.
  destruct (screen_off_keeps K m st (-1) b st1 Hr) as (st' & t & E & Htr & Haw & Hgl);
    [intro H; now contradiction H|].
  exists st', t. repeat split; try assumption.
  unfold globals in Hgl. now injection Hgl.
Qed.

Lemma screen_off_read_failure_witness :
  read_max_freq k_unreadable initial_state
    = Done (-1, auto_array MAX_BUF_SZ)
        (final (read_max_freq k_unreadable initial_state)) /\
  exists st' t,
    sun4i_power_set_interactive k_unreadable TheModule 0 initial_state
      = Done tt st' /\
    scaling_max_freq st' = scaling_max_freq initial_state /\
    trace st' = trace (final (read_max_freq k_unreadable initial_state)) ++ t /\
    attr_write SCALINGMAXFREQ (chars "696000") t.
Proof.
  split; [reflexivity|].
  apply (screen_off_read_failure k_unreadable TheModule initial_state
           (final (read_max_freq k_unreadable initial_state))
           (auto_array MAX_BUF_SZ)).
  reflexivity.
Defined.

(** C4. In a state where the max-frequency file, when it can be read,
    holds the screen-off frequency ("696000", possibly followed by
    end-of-line characters), sun4i_power_set_interactive with the screen
    off returns and leaves the saved frequency array unchanged; so does the
    second of two consecutive screen-off calls. *)
Theorem screen_off_keeps_saved_frequency (K : kernel) (m : modref)
        (st st1 : state) (r : Z) (b : buffer) :
  read_max_freq K st = Done (r, b) st1 ->
  (r <> -1 ->
   exists tail, all_eol tail /\ c_string b = Some (chars "696000" ++ tail)) ->
  exists st',
    sun4i_power_set_interactive K m 0 st = Done tt st' /\
    scaling_max_freq st' = scaling_max_freq st.
Proof.
  intros Hr Hpre.
  destruct (screen_off_keeps K m st r b st1 Hr) as (st' & t & E & _ & _ & Hgl).
  - intro Hne. destruct (Hpre Hne) as (tail & _ & Hs). now exists tail.
  - exists st'. split; [assumption|].
    unfold globals in Hgl. now injection Hgl.
Qed.

Lemma screen_off_keeps_saved_frequency_witness :
  c_string (out_buffer (read_max_freq k_screen_off initial_state))
    = Some (chars "696000" ++ [LF]) /\
  exists st',
    sun4i_power_set_interactive k_screen_off TheModule 0 initial_state
      = Done tt st' /\
    scaling_max_freq st' = scaling_max_freq initial_state.
Proof.
  split; [reflexivity|].
  apply (screen_off_keeps_saved_frequency k_screen_off TheModule initial_state
           (final (read_max_freq k_screen_off initial_state)) 0
           (out_buffer (read_max_freq k_screen_off initial_state))).
  - reflexivity.
  - intros _. exists [LF]. split; reflexivity.
Defined.

(** C3, as stated, fails: with the max-frequency file holding the
    screen-off frequency itself ("696000" and a newline) and the saved
    frequency at its initial "1008000", screen off followed by screen on
    does not write back the text that was read. *)
Lemma screen_off_on_restores_counterexample :
  ~ (forall (K : kernel) (m : modref) (on : Z) (st st1 : state) (b : buffer)
            (V : list ascii),
        wf_state st ->
        read_max_freq K st = Done (0, b) st1 ->
        c_string b = Some V ->
        on <> 0 ->
        exists st2 st3 t,
          sun4i_power_set_interactive K m 0 st = Done tt st2 /\
          sun4i_power_set_interactive K m on st2 = Done tt st3 /\
          trace st3 = trace st2 ++ t /\
          attr_write SCALINGMAXFREQ V t).
Proof.
  intro H.
  destruct (H k_screen_off TheModule 1 initial_state
              (final (read_max_freq k_screen_off initial_state))
              (out_buffer (read_max_freq k_screen_off initial_state))
              (chars (nl "696000")))
    as (st2 & st3 & t & E2 & E3 & Htr & Haw);
    [split; reflexivity|reflexivity|reflexivity|discriminate|].
  vm_compute in E2. injection E2 as <-.
  vm_compute in E3. injection E3 as <-.
  cbn [trace app] in Htr. injection Htr as <-.
  inversion Haw.
Qed.

(** C3, amended.  When the screen-off call reads a frequency text V that
    does not start with the screen-off frequency "696000", the array read
    becomes the saved frequency and the following screen-on call makes the
    best-effort write of exactly V (as read, end-of-line included) to the
    max-frequency file. *)
Theorem screen_off_on_restores (K : kernel) (m : modref) (on : Z)
        (st st1 : state) (b : buffer) (V : list ascii) :
  wf_state st ->
  read_max_freq K st = Done (0, b) st1 ->
  c_string b = Some V ->
  (forall rest, V <> chars "696000" ++ rest) ->
  on <> 0 ->
  exists st2 st3 t,
    sun4i_power_set_interactive K m 0 st = Done tt st2 /\
    sun4i_power_set_interactive K m on st2 = Done tt st3 /\
    trace st3 = trace st2 ++ t /\
    attr_write SCALINGMAXFREQ V t.
Proof.
  intros Hwf Hr Hs Hnp Hon.
  destruct (screen_off_saves K m st b st1 V Hwf Hr Hs Hnp)
    as (st2 & t0 & E2 & _ & _ & Hsaved & _).
  rewrite <- Hsaved in Hs.
  destruct (screen_on_writes K m on st2 V Hon Hs)
    as (st3 & t & E3 & Htr & Haw & _).
  now exists st2, st3, t.
Qed.

Lemma screen_off_on_restores_witness :
  wf_state initial_state /\
  c_string (out_buffer (read_max_freq k_underclocked initial_state))
    = Some (chars (nl "912000")) /\
  exists st2 st3 t,
    sun4i_power_set_interactive k_underclocked TheModule 0 initial_state
      = Done tt st2 /\
    sun4i_power_set_interactive k_underclocked TheModule 1 st2 = Done tt st3 /\
    trace st3 = trace st2 ++ t /\
    attr_write SCALINGMAXFREQ (chars (nl "912000")) t.
Proof.
  split; [split; reflexivity|]. split; [reflexivity|].
  apply (screen_off_on_restores k_underclocked TheModule 1 initial_state
           (final (read_max_freq k_underclocked initial_state))
           (out_buffer (read_max_freq k_underclocked initial_state))
           (chars (nl "912000"))).
  - split; reflexivity.
  - reflexivity.
  - reflexivity.
  - intros rest H. discriminate H.
  - discriminate.
Defined.

(** ** Normalisation of the governor name *)

(** C7. When sysfs_read leaves in the array a governor string made of a
    body and a trailing run of '\n' and '\r' characters (the whole run:
    the body does not end in one), get_scaling_governor returns 0 with the
    string reduced to the body.  In the array exactly the bytes of the run
    are overwritten with NUL; the bytes of the body and every byte after
    the string are as sysfs_read left them. *)
Theorem governor_trailing_eol_stripped (K : kernel) (g g1 : buffer)
        (size : Z) (st st1 : state) (body tail : list ascii) :
  sysfs_read K SCALING_GOVERNOR g size st = Done (0, g1) st1 ->
  c_string g1 = Some (body ++ tail) ->
  all_eol tail ->
  eol_free_end body ->
  exists g2 rest,
    get_scaling_governor K g size st = Done (0, g2) st1 /\
    c_string g2 = Some body /\
    g1 = map Some body ++ map Some tail ++ Some NUL :: rest /\
    g2 = map Some body ++ repeat (Some NUL) (List.length tail)
           ++ Some NUL :: rest.
Proof.
  intros Hr Hs Ht Hb.
  destruct (get_scaling_governor_trims K g size st g1 st1 body tail
              Hr Hs Hb Ht) as (rest & Hg1 & Hg).
  eexists _, rest. split; [exact Hg|].
  split; [|split; [|reflexivity]].
  - apply trimmed_c_string.
    destruct (c_string_inv _ _ Hs) as (Hf & _).
    intro Hin. apply Hf, in_or_app. now left.
  - now rewrite Hg1, map_app, <- app_assoc.
Qed.

Lemma governor_trailing_eol_stripped_witness :
  c_string (out_buffer (sysfs_read k_interactive SCALING_GOVERNOR
                          (auto_array 80) 80 initial_state))
    = Some (chars "interactive" ++ [LF]) /\
  all_eol [LF] /\ eol_free_end (chars "interactive") /\
  exists g2 rest,
    get_scaling_governor k_interactive (auto_array 80) 80 initial_state
      = Done (0, g2)
          (final (sysfs_read k_interactive SCALING_GOVERNOR (auto_array 80) 80
                    initial_state)) /\
    c_string g2 = Some (chars "interactive") /\
    out_buffer (sysfs_read k_interactive SCALING_GOVERNOR (auto_array 80) 80
                  initial_state)
      = map Some (chars "interactive") ++ map Some [LF] ++ Some NUL :: rest /\
    g2 = map Some (chars "interactive") ++ repeat (Some NUL) 1
           ++ Some NUL :: rest.
Proof.
  split; [reflexivity|]. split; [reflexivity|]. split; [reflexivity|].
  apply (governor_trailing_eol_stripped k_interactive (auto_array 80)
           (out_buffer (sysfs_read k_interactive SCALING_GOVERNOR
                          (auto_array 80) 80 initial_state))
           80 initial_state
           (final (sysfs_read k_interactive SCALING_GOVERNOR (auto_array 80) 80
                     initial_state))
           (chars "interactive") [LF]).
  - reflexivity.
  - reflexivity.
  - reflexivity.
  - reflexivity.
Defined.

Lemma sysfs_read_within_capacity_witness :
  1 <= 80 /\ Z.of_nat (List.length (auto_array 80)) = 80 /\
  (exists ret s' st' n,
      sysfs_read k_interactive SCALING_GOVERNOR (auto_array 80) 80
                 initial_state = Done (ret, s') st' /\
      List.length s' = List.length (auto_array 80) /\
      Z.of_nat n <= 80 /\ skipn n s' = skipn n (auto_array 80) /\
      (ret = 0 -> exists len, strlen s' = Some len /\ Z.of_nat len < 80))
  /\
  (exists ret g' st',
      get_scaling_governor k_interactive (auto_array 80) 80 initial_state
        = Done (ret, g') st' /\
      List.length g' = List.length (auto_array 80)).
Proof.
  split; [lia|]. split; [reflexivity|].
  apply (sysfs_read_within_capacity k_interactive SCALING_GOVERNOR
           (auto_array 80) 80 initial_state); [lia|reflexivity].
Defined.

(** ** Power hints *)

Module HintFacts.

Lemma uint_nul_free (d : Decimal.uint) :
  ~ In NUL (chars (NilEmpty.string_of_uint d)).
Proof.
  induction d; cbn; try tauto;
    (intros [H|H]; [discriminate H|now apply IHd]).
Qed.

Lemma decimal_nul_free (z : Z) : ~ In NUL (decimal z).
Proof.
  unfold decimal, NilZero.string_of_int.
  assert (Hu : forall d, ~ In NUL (chars (NilZero.string_of_uint d))).
  { intro d. destruct d; try apply uint_nul_free.
    cbn. intros [H|H]; [discriminate H|exact H]. }
  destruct (Z.to_int z) as [d|d]; [apply Hu|].
  cbn. intros [H|H]; [discriminate H|now apply (Hu d)].
Qed.

Lemma firstn_nul_free (n : nat) (l : list ascii) :
  ~ In NUL l -> ~ In NUL (firstn n l).
Proof.
  intros H Hin. apply H. revert Hin. rewrite <- (firstn_skipn n l) at 2.
  intro. apply in_or_app. now left.
Qed.

(** What a library call that writes at most 79 characters and a NUL
    leaves in an 80-byte array. *)
Lemma blit_text (buf : buffer) (l : list ascii) :
  List.length buf = 80%nat ->
  exists rest,
    blit buf (firstn 79 l ++ [NUL])
      = Some (map Some (firstn 79 l) ++ Some NUL :: rest) /\
    List.length (map Some (firstn 79 l) ++ Some NUL :: rest) = 80%nat.
Proof.
  intro Hl. unfold blit.
  assert (Hle : (List.length (firstn 79 l ++ [NUL]) <= 80)%nat).
  { rewrite length_app, length_firstn. cbn [List.length]. lia. }
  rewrite Hl. rewrite (proj2 (Nat.leb_le _ _) Hle).
  exists (skipn (List.length (firstn 79 l ++ [NUL])) buf).
  rewrite map_app, <- app_assoc. split; [reflexivity|].
  rewrite length_app, length_map. cbn [List.length].
  rewrite length_skipn, Hl. rewrite length_app in *. cbn [List.length] in *.
  lia.
Qed.

Section WithKernel.

Variable K : kernel.

Lemma boostpulse_open_returns_fd st fd st1 :
  boostpulse_open K TheModule st = Done fd st1 -> fd = boostpulse_fd st1.
Proof.
  unfold boostpulse_open. cbn [pthread_mutex_lock pthread_mutex_unlock load_fd].
  rewrite bind_ret, bind_get. intro H.
  apply bind_inv in H as (a & s1 & _ & H).
  rewrite bind_ret, (bind_get boostpulse_fd) in H || idtac.
  cbn in H. now injection H as <- <-.
Qed.

(** A boost hint whose handle is available, up to the write to the
    handle. *)
Lemma hint_until_write hint data st fd st1 :
  is_boost hint = true ->
  boostpulse_open K TheModule st = Done fd st1 -> 0 <= fd ->
  exists buf,
    c_string buf = Some (duration_text data) /\
    List.length buf = 80%nat /\
    sun4i_power_hint K TheModule hint data st =
      (len <- sys_write K (boostpulse_fd st1) (duration_text data) ;;
       buf' <- (if len <? 0 then
                  e <- get errno ;;
                  b <- lift OutOfBounds (strerror_r (k_strerror K e) buf 80) ;;
                  pthread_mutex_lock TheModule ;;
                  fd'' <- load_fd TheModule ;;
                  sys_close fd'' ;;
                  store_fd TheModule (-1) ;;
                  store_warned TheModule 0 ;;
                  pthread_mutex_unlock TheModule ;;
                  ret b
                else ret buf) ;;
       sysfs_write K BOOSTPULSE_MALI buf') st1.
Proof.
  intros Hh Ho Hfd.
  destruct (blit_text (auto_array 80)
              (decimal (if data =? 0 then 1 else to_int data)) eq_refl)
    as (rest & Hb & Hl).
  set (buf := map Some (firstn 79 (decimal (if data =? 0 then 1 else to_int data)))
                ++ Some NUL :: rest) in *.
  assert (Hs : c_string buf = Some (duration_text data)).
  { apply c_string_intro, firstn_nul_free, decimal_nul_free. }
  exists buf. split; [exact Hs|]. split; [exact Hl|].
  destruct hint; try discriminate Hh; unfold sun4i_power_hint.
  all: rewrite (bind_done _ _ _ _ _ Ho).
  all: rewrite (proj2 (Z.leb_le 0 fd) Hfd).
  all: unfold snprintf_d; change (80 - 1)%nat with 79%nat; rewrite Hb.
  all: cbn [lift load_fd]; rewrite bind_ret, bind_get.
  all: rewrite (strlen_c_string _ _ Hs); cbn [lift]; rewrite bind_ret.
  all: rewrite (load_c_string _ _ Hs); cbn [lift]; rewrite bind_ret.
  all: reflexivity.
Qed.

(** The boost hint after a failed write to the handle: the handle is
    closed and invalidated, the warned flag cleared, and the GPU file is
    written with what strerror_r put into the buffer. *)
Lemma hint_after_failed_write hint data st fd st1 r st2 :
  is_boost hint = true ->
  boostpulse_open K TheModule st = Done fd st1 -> 0 <= fd ->
  sys_write K (boostpulse_fd st1) (duration_text data) st1 = Done r st2 ->
  r < 0 ->
  exists st' t,
    sun4i_power_hint K TheModule hint data st = Done tt st' /\
    trace st' = trace st2 ++ EvClose (boostpulse_fd st1) :: t /\
    attr_write BOOSTPULSE_MALI (error_text K (errno st2)) t /\
    boostpulse_fd st' = -1 /\
    boostpulse_warned st' = 0 /\
    scaling_max_freq st' = scaling_max_freq st1 /\
    current_governor st' = current_governor st1.
Proof.
  intros Hh Ho Hfd Hw Hr.
  destruct (hint_until_write hint data st fd st1 Hh Ho Hfd)
    as (buf & Hs & Hl & ->).
  rewrite (bind_done _ _ _ _ _ Hw).
  rewrite (proj2 (Z.ltb_lt r 0) Hr).
  destruct (blit_text buf (chars (k_strerror K (errno st2))) Hl)
    as (rest & Hb & _).
  assert (Hfd2 : boostpulse_fd st2 = boostpulse_fd st1).
  { pose proof (frames_sys_write (keeps boostpulse_fd) K
                  (boostpulse_fd st1) (duration_text data) st1) as F.
    rewrite Hw in F. exact F. }
  assert (Hgl2 : globals st2 = globals st1).
  { pose proof (frames_sys_write (keeps globals) K
                  (boostpulse_fd st1) (duration_text data) st1) as F.
    rewrite Hw in F. exact F. }
  rewrite !bind_assoc, bind_get.
  unfold strerror_r. change (80 - 1)%nat with 79%nat. rewrite Hb.
  cbn [lift pthread_mutex_lock pthread_mutex_unlock load_fd].
  rewrite !bind_assoc, bind_ret. rewrite !bind_assoc, bind_ret.
  rewrite !bind_assoc, bind_get. rewrite Hfd2.
  rewrite !bind_assoc. unfold bind at 1, sys_close at 1.
  rewrite !bind_assoc. unfold bind at 1. cbn [store_fd].
  rewrite !bind_assoc. unfold bind at 1. cbn [store_warned].
  rewrite !bind_assoc, bind_ret, bind_ret.
  match goal with
  | |- context [sysfs_write K _ _ ?s0] => set (sc := s0)
  end.
  destruct (sysfs_write_spec K BOOSTPULSE_MALI _ _ sc
              (c_string_until (firstn 79 (chars (k_strerror K (errno st2)))) rest))
    as (t & st' & E & Haw & Htr & Hgl).
  exists st', t. split; [exact E|].
  split; [rewrite Htr; subst sc; cbn; now rewrite <- app_assoc|].
  split; [exact Haw|].
  unfold globals in Hgl, Hgl2. subst sc. cbn in Hgl.
  injection Hgl as -> -> -> ->. injection Hgl2 as -> -> _ _.
  repeat split.
Qed.

(** The boost hint after a successful write to the handle: the GPU file
    is written with the duration text and the module data stays. *)
Lemma hint_after_write hint data st fd st1 r st2 :
  is_boost hint = true ->
  boostpulse_open K TheModule st = Done fd st1 -> 0 <= fd ->
  sys_write K (boostpulse_fd st1) (duration_text data) st1 = Done r st2 ->
  0 <= r ->
  exists st' t,
    sun4i_power_hint K TheModule hint data st = Done tt st' /\
    trace st' = trace st2 ++ t /\
    attr_write BOOSTPULSE_MALI (duration_text data) t /\
    globals st' = globals st1.
Proof.
  intros Hh Ho Hfd Hw Hr.
  destruct (hint_until_write hint data st fd st1 Hh Ho Hfd)
    as (buf & Hs & Hl & ->).
  rewrite (bind_done _ _ _ _ _ Hw).
  rewrite (proj2 (Z.ltb_ge r 0) Hr). rewrite bind_ret.
  assert (Hgl2 : globals st2 = globals st1).
  { pose proof (frames_sys_write (keeps globals) K
                  (boostpulse_fd st1) (duration_text data) st1) as F.
    rewrite Hw in F. exact F. }
  destruct (sysfs_write_spec K BOOSTPULSE_MALI _ _ st2 Hs)
    as (t & st' & E & Haw & Htr & Hgl).
  exists st', t. repeat split; try assumption. congruence.
Qed.

End WithKernel.

End HintFacts.
Import HintFacts.

(** ** Reopening the boost-pulse handle *)

Module ReopenFacts.

Lemma begins_bind {A B} (e : event) (m : M A) (k : A -> M B) s :
  begins_with e m s -> (forall a, frames grows (k a)) ->
  begins_with e (bind m k) s.
Proof.
  intros [t Ht] Hk. unfold begins_with, bind.
  destruct (m s) as [a s1|w s1]; cbn [final] in *; [|now exists t].
  destruct (Hk a s1) as [t' Ht']. exists (t ++ t').
  rewrite Ht', Ht, <- app_assoc. reflexivity.
Qed.

Section WithKernel.

Variable K : kernel.

Lemma sys_open_begins path fl s :
  exists r, begins_with (EvOpen path fl r) (sys_open K path fl) s.
Proof.
  exists (k_open K (trace s) path fl), []. unfold sys_open.
  now destruct (k_open K (trace s) path fl).
Qed.

Lemma get_scaling_governor_begins g n s :
  exists r,
    begins_with (EvOpen SCALING_GOVERNOR O_RDONLY r)
                (get_scaling_governor K g n) s.
Proof.
  destruct (sys_open_begins SCALING_GOVERNOR O_RDONLY s) as [r Hr].
  exists r. unfold get_scaling_governor, sysfs_read.
  apply begins_bind; [apply begins_bind; [exact Hr|]|]; intros; frame.
Qed.

(** Without a handle, boostpulse_open starts by reading the governor. *)
Lemma boostpulse_open_begins s :
  boostpulse_fd s < 0 ->
  exists r,
    begins_with (EvOpen SCALING_GOVERNOR O_RDONLY r)
                (boostpulse_open K TheModule) s.
Proof.
  intro Hfd.
  destruct (get_scaling_governor_begins (auto_array 80) 80 s) as [r Hr].
  exists r. unfold boostpulse_open.
  cbn [pthread_mutex_lock load_fd].
  unfold begins_with. rewrite bind_ret, bind_get.
  rewrite (proj2 (Z.ltb_lt _ _) Hfd).
  apply begins_bind; [apply begins_bind; [exact Hr|]|]; intros; frame.
Qed.

Lemma sun4i_power_hint_begins hint data s :
  is_boost hint = true -> boostpulse_fd s < 0 ->
  exists r,
    begins_with (EvOpen SCALING_GOVERNOR O_RDONLY r)
                (sun4i_power_hint K TheModule hint data) s.
Proof.
  intros Hh Hfd. destruct (boostpulse_open_begins s Hfd) as [r Hr].
  exists r. destruct hint; try discriminate Hh; unfold sun4i_power_hint;
    (apply begins_bind; [exact Hr|]; intros; frame).
Qed.

(** Without a handle and with a governor that has a boost-pulse file,
    a boostpulse_open that returns has opened that file as its last
    system call and returns what open returned. *)
Lemma boostpulse_open_reopens s g sa name path fd' s' :
  boostpulse_fd s < 0 ->
  get_scaling_governor K (auto_array 80) 80 s = Done (0, g) sa ->
  c_string g = Some name ->
  boost_path name = Some path ->
  boostpulse_open K TheModule s = Done fd' s' ->
  exists r t,
    trace s' = trace s ++ t ++ [EvOpen path O_WRONLY r] /\
    fd' = match r with Gives n => Z.of_N n | Fails _ => -1 end.
Proof.
  intros Hfd Hg Hs Hp Ho.
  assert (Hn : 1 <= 80 <= Z.of_nat (List.length (auto_array 80)))
    by (cbn; lia).
  destruct (get_scaling_governor_inv K _ _ _ _ _ _ Hn Hg)
    as (_ & _ & _ & rr & tr & _ & Htr).
  destruct (c_string_inv _ _ Hs) as (Hf & rest & Hgeq).
  unfold boostpulse_open in Ho.
  cbn [pthread_mutex_lock pthread_mutex_unlock load_fd load_warned] in Ho.
  rewrite bind_ret, bind_get, (proj2 (Z.ltb_lt _ _) Hfd) in Ho.
  rewrite !bind_assoc, (bind_done _ _ _ _ _ Hg) in Ho.
  cbn [Z.ltb Z.compare] in Ho.
  rewrite !bind_assoc, bind_get, (strlen_c_string _ _ Hs) in Ho.
  cbn [lift] in Ho. rewrite !bind_assoc, bind_ret in Ho.
  destruct (strncmp g (current_governor sa) (List.length name)) as [c|];
    [|discriminate Ho].
  cbn [lift] in Ho. rewrite !bind_assoc, bind_ret, !bind_assoc in Ho.
  apply bind_inv in Ho as ([] & sb & Hi & Ho).
  assert (Hsb : exists t0, trace sb = trace sa ++ t0).
  { assert (F : frames grows
                  (if negb (c =? 0) then sun4i_power_init K Indeterminate
                   else ret tt)) by frame.
    specialize (F sa). rewrite Hi in F. exact F. }
  destruct Hsb as [t0 Htb].
  destruct (strncmp_lit (chars "interactive")
              ltac:(now apply nul_free_chars) name rest 80 Hf
              ltac:(cbn; lia)) as (c1 & Hc1 & Hc1iff).
  destruct (strncmp_lit (chars "ondemand")
              ltac:(now apply nul_free_chars) name rest 80 Hf
              ltac:(cbn; lia)) as (c2 & Hc2 & Hc2iff).
  change (map Some (chars "interactive") ++ [Some NUL])
    with (lit "interactive") in Hc1.
  change (map Some (chars "ondemand") ++ [Some NUL])
    with (lit "ondemand") in Hc2.
  rewrite <- Hgeq in Hc1, Hc2.
  rewrite !bind_assoc, Hc1 in Ho. cbn [lift] in Ho. rewrite bind_ret in Ho.
  assert (Hopen :
    (fd0 <- sys_open K path O_WRONLY ;;
     store_fd TheModule fd0 ;;
     fd1 <- get boostpulse_fd ;;
     w <- get boostpulse_warned ;;
     (if (fd1 <? 0) && (w =? 0) then store_warned TheModule 1 else ret tt) ;;
     ret tt ;; get boostpulse_fd) sb = Done fd' s').
  { unfold boost_path in Hp.
    destruct (list_eq_dec ascii_dec name (chars "interactive")) as [En|En].
    - injection Hp as <-. rewrite (proj2 Hc1iff En) in Ho.
      cbn [Z.eqb] in Ho. now rewrite !bind_assoc in Ho.
    - assert (Hz : (c1 =? 0) = false)
        by (apply Z.eqb_neq; intro Hz; now apply En, Hc1iff).
      rewrite Hz, !bind_assoc, Hc2 in Ho. cbn [lift] in Ho.
      rewrite bind_ret in Ho.
      destruct (list_eq_dec ascii_dec name (chars "ondemand")) as [Eo|Eo];
        [|discriminate Hp].
      injection Hp as <-. rewrite (proj2 Hc2iff Eo) in Ho.
      cbn [Z.eqb] in Ho. now rewrite !bind_assoc in Ho. }
  clear Ho.
  unfold bind at 1, sys_open in Hopen.
  exists (k_open K (trace sb) path O_WRONLY), (tr ++ t0).
  destruct (k_open K (trace sb) path O_WRONLY) as [e|n].
  - cbn [store_fd] in Hopen. unfold bind at 1 in Hopen.
    rewrite bind_get in Hopen. cbn [boostpulse_fd] in Hopen.
    rewrite bind_get in Hopen. cbn [Z.ltb Z.compare andb] in Hopen.
    destruct (boostpulse_warned _ =? 0) in Hopen;
      cbn in Hopen; injection Hopen as <- <-; cbn;
      (split; [now rewrite Htb, Htr, <- !app_assoc|reflexivity]).
  - cbn [store_fd] in Hopen. unfold bind at 1 in Hopen.
    rewrite bind_get in Hopen. cbn [boostpulse_fd] in Hopen.
    rewrite bind_get, of_N_ltb in Hopen. cbn [andb] in Hopen.
    cbn in Hopen. injection Hopen as <- <-. cbn.
    split; [now rewrite Htb, Htr, <- !app_assoc|reflexivity].
Qed.

Lemma sun4i_power_hint_reopens s :
  boostpulse_fd s < 0 -> reopens_from_scratch K s.
Proof.
  intros Hfd hint data Hh. split.
  - now apply sun4i_power_hint_begins.
  - intros g sa name path s' Hg Hs Hp Hd.
    assert (Hb : exists fd' s1,
               boostpulse_open K TheModule s = Done fd' s1 /\
               grows s1 s').
    { destruct hint; try discriminate Hh; unfold sun4i_power_hint in Hd;
        apply bind_inv in Hd as (fd' & s1 & Ho & Hk);
        (exists fd', s1; split; [exact Ho|]);
        match type of Hk with
        | ?m s1 = _ =>
            let F := fresh "F" in
            assert (F : frames grows m) by frame;
            specialize (F s1); rewrite Hk in F; exact F
        end. }
    destruct Hb as (fd' & s1 & Ho & [t2 Ht2]).
    destruct (boostpulse_open_reopens s g sa name path fd' s1
                Hfd Hg Hs Hp Ho) as (r & t1 & Ht1 & _).
    exists r, t1, t2.
    rewrite Ht2, Ht1, <- !app_assoc. reflexivity.
Qed.

End WithKernel.

End ReopenFacts.
Import ReopenFacts.

(** C5. When the write to the boost-pulse handle fails during an
    interaction or CPU-boost hint, sun4i_power_hint closes the handle (the
    close is its next system call), sets boostpulse_fd to -1 and clears
    boostpulse_warned; from the resulting state every further boost hint
    goes through the open path again: it starts by reading the governor,
    and it opens the boost-pulse file of the governor it reads. *)
Theorem hint_write_failure_recovers (K : kernel) (hint : power_hint_t)
        (data : Z) (st st1 st2 : state) (fd r : Z) :
  is_boost hint = true ->
  boostpulse_open K TheModule st = Done fd st1 ->
  0 <= fd ->
  sys_write K (boostpulse_fd st1) (duration_text data) st1 = Done r st2 ->
  r < 0 ->
  exists st' t,
    sun4i_power_hint K TheModule hint data st = Done tt st' /\
    trace st' = trace st2 ++ EvClose (boostpulse_fd st1) :: t /\
    boostpulse_fd st' = -1 /\
    boostpulse_warned st' = 0 /\
    reopens_from_scratch K st'.
Proof.
  intros Hh Ho Hfd Hw Hr.
  destruct (hint_after_failed_write K hint data st fd st1 r st2 Hh Ho Hfd Hw Hr)
    as (st' & t & E & Htr & _ & Hfd' & Hwd & _).
  exists st', t. repeat (split; [assumption|]).
  apply sun4i_power_hint_reopens. lia.
Qed.

Lemma hint_write_failure_recovers_witness :
  boostpulse_open k_boost_broken TheModule initial_state
    = Done 7 st_boost_opened /\
  sys_write k_boost_broken (boostpulse_fd st_boost_opened) (duration_text 0)
            st_boost_opened = Done (-1) st_boost_failed /\
  exists st' t,
    sun4i_power_hint k_boost_broken TheModule POWER_HINT_INTERACTION 0
                     initial_state = Done tt st' /\
    trace st' = trace st_boost_failed
                  ++ EvClose (boostpulse_fd st_boost_opened) :: t /\
    boostpulse_fd st' = -1 /\
    boostpulse_warned st' = 0 /\
    reopens_from_scratch k_boost_broken st'.
Proof.
  split; [reflexivity|]. split; [reflexivity|].
  apply (hint_write_failure_recovers k_boost_broken POWER_HINT_INTERACTION 0
           initial_state st_boost_opened st_boost_failed 7 (-1)).
  - reflexivity.
  - reflexivity.
  - lia.
  - reflexivity.
  - lia.
Defined.

(** C1. What a boost hint writes to the GPU boost-pulse file depends on
    the outcome of the write to the boost-pulse handle.  After a successful
    write it is the duration text.  After a failed write it is not:
    strerror_r has overwritten the shared buffer with the message for
    errno, the handle is closed, and that message is what the best-effort
    write to /sys/devices/platform/mali_dev.0/boostpulse carries. *)
Theorem hint_gpu_text_by_write_outcome (K : kernel) (hint : power_hint_t)
        (data : Z) (st st1 st2 : state) (fd r : Z) :
  is_boost hint = true ->
  boostpulse_open K TheModule st = Done fd st1 ->
  0 <= fd ->
  sys_write K (boostpulse_fd st1) (duration_text data) st1 = Done r st2 ->
  exists st' t,
    sun4i_power_hint K TheModule hint data st = Done tt st' /\
    attr_write BOOSTPULSE_MALI
               (if r <? 0 then error_text K (errno st2) else duration_text data)
               t /\
    trace st' = trace st2
                  ++ (if r <? 0 then [EvClose (boostpulse_fd st1)] else [])
                  ++ t.
Proof.
  intros Hh Ho Hfd Hw.
  destruct (r <? 0) eqn:Hr.
  - apply Z.ltb_lt in Hr.
    destruct (hint_after_failed_write K hint data st fd st1 r st2
                Hh Ho Hfd Hw Hr) as (st' & t & E & Htr & Haw & _).
    now exists st', t.
  - apply Z.ltb_ge in Hr.
    destruct (hint_after_write K hint data st fd st1 r st2 Hh Ho Hfd Hw Hr)
      as (st' & t & E & Htr & Haw & _).
    now exists st', t.
Qed.

Lemma hint_gpu_text_by_write_outcome_witness :
  duration_text 0 = chars "1" /\
  error_text k_boost_broken (errno st_boost_failed) = chars "Invalid argument" /\
  written (trace (final (sun4i_power_hint k_boost_broken TheModule
                           POWER_HINT_INTERACTION 0 initial_state)))
    = [chars "20000"; chars "60000"; chars "696000"; chars "50";
       chars "100000"; chars "1200"; chars "500";
       chars "1"; chars "Invalid argument"] /\
  exists st' t,
    sun4i_power_hint k_boost_broken TheModule POWER_HINT_INTERACTION 0
                     initial_state = Done tt st' /\
    attr_write BOOSTPULSE_MALI
               (error_text k_boost_broken (errno st_boost_failed)) t /\
    trace st' = trace st_boost_failed
                  ++ [EvClose (boostpulse_fd st_boost_opened)] ++ t.
Proof.
  split; [reflexivity|]. split; [reflexivity|]. split; [reflexivity|].
  apply (hint_gpu_text_by_write_outcome k_boost_broken
           POWER_HINT_INTERACTION 0 initial_state st_boost_opened
           st_boost_failed 7 (-1)).
  - reflexivity.
  - reflexivity.
  - lia.
  - reflexivity.
Defined.

(** * Further properties of the entry points *)

(** ** Initialisation with the on-demand governor *)

(** When the governor reads as "ondemand", sun4i_power_init returns, and
    after the read of the governor file its events are exactly the five
    best-effort writes, in order: boostfreq "696000", up_threshold "70",
    sampling_rate "50000", then mali_boost_rate "1200" and
    mali_boost_duration "500".  No interactive tuning path is opened. *)
Theorem init_ondemand_tuning (K : kernel) (m : modref) (st st1 : state)
        (g : buffer) :
  wf_state st ->
  get_scaling_governor K (auto_array 80) 80 st = Done (0, g) st1 ->
  c_string g = Some (chars "ondemand") ->
  exists st' tr tw rr,
    sun4i_power_init K m st = Done tt st' /\
    trace st' = trace st ++ tr ++ tw /\
    attr_read SCALING_GOVERNOR 79 rr tr /\
    attr_writes (ondemand_tuning ++ gpu_tuning) tw /\
    opened_for_write (tr ++ tw) = map fst (ondemand_tuning ++ gpu_tuning) /\
    (forall p, In p (map fst interactive_tuning) ->
               ~ In p (opened_for_write (tr ++ tw))).
Proof.
  intros Hwf Hg Hs.
  destruct (sun4i_power_init_tunes K m st g st1 _ Hwf Hg Hs)
    as (st' & tr & tw & rr & E & Htr & Har & Haw & _).
  change (tuning_for (chars "ondemand")) with ondemand_tuning in Haw.
  assert (Ho : opened_for_write (tr ++ tw)
               = map fst (ondemand_tuning ++ gpu_tuning)).
  { rewrite opened_for_write_app, (attr_read_opened _ _ _ _ Har).
    now rewrite (attr_writes_opened _ _ Haw). }
  exists st', tr, tw, rr. repeat (split; [assumption|]).
  intros p Hp Hin. rewrite Ho in Hin. cbn in Hp, Hin.
  repeat (destruct Hp as [<-|Hp]; [intuition discriminate|]).
  exact Hp.
Qed.

Lemma init_ondemand_tuning_witness :
  wf_state initial_state /\
  c_string (out_buffer (get_scaling_governor k_ondemand (auto_array 80) 80
                          initial_state))
    = Some (chars "ondemand") /\
  exists st' tr tw rr,
    sun4i_power_init k_ondemand TheModule initial_state = Done tt st' /\
    trace st' = trace initial_state ++ tr ++ tw /\
    attr_read SCALING_GOVERNOR 79 rr tr /\
    attr_writes (ondemand_tuning ++ gpu_tuning) tw /\
    opened_for_write (tr ++ tw) = map fst (ondemand_tuning ++ gpu_tuning) /\
    (forall p, In p (map fst interactive_tuning) ->
               ~ In p (opened_for_write (tr ++ tw))).
Proof.
  split; [split; reflexivity|]. split; [reflexivity|].
  apply (init_ondemand_tuning k_ondemand TheModule initial_state
           (final (get_scaling_governor k_ondemand (auto_array 80) 80
                     initial_state))
           (out_buffer (get_scaling_governor k_ondemand (auto_array 80) 80
                          initial_state))).
  - split; reflexivity.
  - reflexivity.
  - reflexivity.
Defined.

(** ** The governor cache *)

Module CacheFacts.

#[global] Instance keeps_current_governor_io : Io (keeps current_governor).
Proof. split; unfold keeps; intros; try reflexivity; congruence. Qed.

Lemma firstn_string (n : nat) (name : list ascii) (rest tl : buffer) :
  (List.length name < n)%nat ->
  exists rest',
    firstn n (map Some name ++ Some NUL :: rest) ++ tl
    = map Some name ++ Some NUL :: rest'.
Proof.
  intro Hl. rewrite firstn_app, length_map.
  rewrite firstn_all2 by (rewrite length_map; lia).
  destruct (n - List.length name)%nat as [|k] eqn:E; [lia|].
  cbn [firstn]. rewrite <- app_assoc. cbn [app]. now eexists.
Qed.

(** What sun4i_power_init leaves in current_governor. *)
Lemma sun4i_power_init_cache K m st g st1 cur' :
  get_scaling_governor K (auto_array 80) 80 st = Done (0, g) st1 ->
  memcpy (current_governor st1) g MAX_BUF_SZ = Some cur' ->
  current_governor (final (sun4i_power_init K m st)) = cur'.
Proof.
  intros Hg Hm. unfold sun4i_power_init.
  rewrite (bind_done _ _ _ _ _ Hg). cbn [Z.ltb Z.compare].
  rewrite bind_get, Hm. cbn [lift]. rewrite bind_ret.
  unfold bind at 1. cbn [set_current_governor].
  match goal with
  | |- current_governor (final (?rest ?s0)) = _ =>
      assert (F : frames (keeps current_governor) rest) by frame;
      rewrite (F s0)
  end.
  reflexivity.
Qed.

End CacheFacts.
Import CacheFacts.

(** Once the governor was read, sun4i_power_init returns with the name in
    current_governor (a name shorter than MAX_BUF_SZ is cached whole, with
    its terminator) and with the boost-pulse handle, the warned flag and
    the saved frequency as they were. *)
Theorem init_caches_governor (K : kernel) (m : modref) (st st1 : state)
        (g : buffer) (name : list ascii) :
  wf_state st ->
  get_scaling_governor K (auto_array 80) 80 st = Done (0, g) st1 ->
  c_string g = Some name ->
  (List.length name < MAX_BUF_SZ)%nat ->
  exists st',
    sun4i_power_init K m st = Done tt st' /\
    c_string (current_governor st') = Some name /\
    boostpulse_fd st' = boostpulse_fd st /\
    boostpulse_warned st' = boostpulse_warned st /\
    scaling_max_freq st' = scaling_max_freq st.
Proof.
  intros Hwf Hg Hs Hl.
  destruct (sun4i_power_init_tunes K m st g st1 _ Hwf Hg Hs)
    as (st' & _ & _ & _ & E & _ & _ & _ & Hfd & Hwd & Hmf).
  exists st'. split; [exact E|]. split; [|now repeat split].
  assert (Hn : 1 <= 80 <= Z.of_nat (List.length (auto_array 80)))
    by (cbn; lia).
  destruct (get_scaling_governor_inv K _ _ _ _ _ _ Hn Hg)
    as (Hlg & _ & Hgl & _).
  destruct Hwf as [_ Hw2].
  assert (Hcur : List.length (current_governor st1) = MAX_BUF_SZ).
  { unfold globals in Hgl. injection Hgl as _ -> _ _. exact Hw2. }
  assert (Hm : memcpy (current_governor st1) g MAX_BUF_SZ
               = Some (firstn MAX_BUF_SZ g
                         ++ skipn MAX_BUF_SZ (current_governor st1))).
  { unfold memcpy. now rewrite Hlg, Hcur. }
  pose proof (sun4i_power_init_cache K m st g st1 _ Hg Hm) as Hc.
  rewrite E in Hc. cbn [final] in Hc. rewrite Hc.
  destruct (c_string_inv _ _ Hs) as (Hf & rest & ->).
  destruct (firstn_string MAX_BUF_SZ name rest
              (skipn MAX_BUF_SZ (current_governor st1)) Hl) as (rest' & Hfs).
  etransitivity; [exact (f_equal c_string Hfs)|].
  now apply c_string_intro.
Qed.

Lemma init_caches_governor_witness :
  wf_state initial_state /\
  exists st',
    sun4i_power_init k_interactive TheModule initial_state = Done tt st' /\
    c_string (current_governor st') = Some (chars "interactive") /\
    boostpulse_fd st' = boostpulse_fd initial_state /\
    boostpulse_warned st' = boostpulse_warned initial_state /\
    scaling_max_freq st' = scaling_max_freq initial_state.
Proof.
  split; [split; reflexivity|].
  apply (init_caches_governor k_interactive TheModule initial_state
           (final (get_scaling_governor k_interactive (auto_array 80) 80
                     initial_state))
           (out_buffer (get_scaling_governor k_interactive (auto_array 80) 80
                          initial_state))
           (chars "interactive")).
  - split; reflexivity.
  - reflexivity.
  - reflexivity.
  - apply Nat.ltb_lt. reflexivity.
Defined.

(** ** Descriptors *)

Module DescriptorFacts.

Lemma unclosed_app t1 t2 acc :
  unclosed (t1 ++ t2) acc = unclosed t2 (unclosed t1 acc).
Proof.
  revert acc. induction t1 as [|e t1 IH]; intro acc; [reflexivity|].
  destruct e as [p fl [e|fd]| | |]; cbn [app unclosed]; apply IH.
Qed.

Lemma attr_write_closed p text t acc :
  attr_write p text t -> unclosed t acc = acc.
Proof.
  intros []; cbn [unclosed remove_one]; [reflexivity|].
  now rewrite Z.eqb_refl.
Qed.

Lemma attr_read_closed p n r t acc :
  attr_read p n r t -> unclosed t acc = acc.
Proof.
  intros []; cbn [unclosed remove_one]; [reflexivity|].
  destruct r; cbn [unclosed remove_one]; now rewrite Z.eqb_refl.
Qed.

Lemma attr_writes_closed l t acc :
  attr_writes l t -> unclosed t acc = acc.
Proof.
  induction 1 as [|p v l t1 t2 H1 _ IH]; [reflexivity|].
  now rewrite unclosed_app, (attr_write_closed _ _ _ _ H1).
Qed.

End DescriptorFacts.
Import DescriptorFacts.

(** Once the governor was read, sun4i_power_init returns and leaves no
    descriptor open: every descriptor its sysfs_read and sysfs_write calls
    opened is closed again, also when a read or a write on it failed. *)
Theorem init_closes_descriptors (K : kernel) (m : modref) (st st1 : state)
        (g : buffer) :
  wf_state st ->
  get_scaling_governor K (auto_array 80) 80 st = Done (0, g) st1 ->
  exists st' t,
    sun4i_power_init K m st = Done tt st' /\
    trace st' = trace st ++ t /\
    forall acc, unclosed t acc = acc.
Proof.
  intros Hwf Hg.
  assert (Hn : 1 <= 80 <= Z.of_nat (List.length (auto_array 80)))
    by (cbn; lia).
  destruct (get_scaling_governor_inv K _ _ _ _ _ _ Hn Hg)
    as (_ & [[H0 _]|[_ [name Hs]]] & _); [discriminate H0|].
  destruct (sun4i_power_init_tunes K m st g st1 _ Hwf Hg Hs)
    as (st' & tr & tw & rr & E & Htr & Har & Haw & _).
  exists st', (tr ++ tw). repeat (split; [assumption|]).
  intro acc. rewrite unclosed_app, (attr_read_closed _ _ _ _ _ Har).
  apply (attr_writes_closed _ _ _ Haw).
Qed.

Lemma init_closes_descriptors_witness :
  wf_state initial_state /\
  exists st' t,
    sun4i_power_init k_performance TheModule initial_state = Done tt st' /\
    trace st' = trace initial_state ++ t /\
    forall acc, unclosed t acc = acc.
Proof.
  split; [split; reflexivity|].
  apply (init_closes_descriptors k_performance TheModule initial_state
           (final (get_scaling_governor k_performance (auto_array 80) 80
                     initial_state))
           (out_buffer (get_scaling_governor k_performance (auto_array 80) 80
                          initial_state))).
  - split; reflexivity.
  - reflexivity.
Defined.

(** ** What get_scaling_governor returns *)

(** get_scaling_governor on an array of at least [size >= 1] bytes returns
    -1 with the array untouched, or 0 with the array holding a name that
    does not end in '\n' or '\r' and is shorter than [size]. *)
Theorem governor_name_normalised (K : kernel) (g g' : buffer) (size r : Z)
        (st st' : state) :
  1 <= size <= Z.of_nat (List.length g) ->
  get_scaling_governor K g size st = Done (r, g') st' ->
  (r = -1 /\ g' = g) \/
  (r = 0 /\
   exists name,
     c_string g' = Some name /\ eol_free_end name /\
     Z.of_nat (List.length name) < size).
Proof.
  intros Hn H.
  destruct (sysfs_read_spec K SCALING_GOVERNOR g size st Hn)
    as ([e|d] & t & st0 & Hr & _).
  - left. unfold get_scaling_governor in H.
    rewrite (bind_done _ _ _ _ _ Hr) in H. cbn in H.
    now injection H as <- <- _.
  - right. destruct Hr as [Hr Hd].
    pose proof (c_string_until d (skipn (S (List.length d)) g)) as Hs.
    destruct (split_eol (until_nul d)) as (body & tail & Hsplit & Hb & Ht).
    rewrite Hsplit in Hs.
    destruct (get_scaling_governor_trims K g size st _ st0 body tail
                Hr Hs Hb Ht) as (rest & _ & Hg).
    rewrite H in Hg. injection Hg as -> -> _.
    split; [reflexivity|]. exists body. split; [|split; [exact Hb|]].
    + apply trimmed_c_string. intro Hin.
      apply (until_nul_free d). rewrite Hsplit. apply in_or_app. now left.
    + pose proof (until_nul_length d) as Hu.
      rewrite Hsplit, length_app in Hu. lia.
Qed.

Lemma governor_name_normalised_witness :
  1 <= 80 <= Z.of_nat (List.length (auto_array 80)) /\
  ((0 = -1 /\
    out_buffer (get_scaling_governor k_interactive (auto_array 80) 80
                  initial_state) = auto_array 80) \/
   (0 = 0 /\
    exists name,
      c_string (out_buffer (get_scaling_governor k_interactive (auto_array 80)
                              80 initial_state)) = Some name /\
      eol_free_end name /\ Z.of_nat (List.length name) < 80)).
Proof.
  split; [cbn; lia|].
  apply (governor_name_normalised k_interactive (auto_array 80)
           (out_buffer (get_scaling_governor k_interactive (auto_array 80) 80
                          initial_state))
           80 0 initial_state
           (final (get_scaling_governor k_interactive (auto_array 80) 80
                     initial_state))).
  - cbn. lia.
  - reflexivity.
Defined.

(** ** Screen off and on, in full *)

Module ScreenFacts.

Lemma starts_with_iff (p l : list ascii) :
  starts_with p l = true <-> exists r, l = p ++ r.
Proof.
  revert l. induction p as [|c p IH]; intro l; cbn [starts_with].
  - split; [now exists l|reflexivity].
  - destruct l as [|d l].
    + split; [discriminate|intros [r H]; discriminate H].
    + rewrite andb_true_iff, Ascii.eqb_eq, IH.
      split.
      * intros [-> [r ->]]. now exists r.
      * intros [r H]. injection H as -> ->. split; [reflexivity|now exists r].
Qed.

Lemma max_buf_bounds :
  1 <= Z.of_nat MAX_BUF_SZ
    <= Z.of_nat (List.length (auto_array MAX_BUF_SZ)).
Proof. cbn. lia. Qed.

End ScreenFacts.
Import ScreenFacts.

(** A screen-off call that reads the text V saves the array read as the
    new restore frequency unless V starts with the screen-off frequency
    "696000" (a longer number such as "6960000" also counts); then the
    saved frequency stays. *)
Theorem screen_off_saves_unless_prefixed (K : kernel) (m : modref)
        (st st1 : state) (b : buffer) (V : list ascii) :
  wf_state st ->
  read_max_freq K st = Done (0, b) st1 ->
  c_string b = Some V ->
  exists st',
    sun4i_power_set_interactive K m 0 st = Done tt st' /\
    scaling_max_freq st' =
      if starts_with (chars "696000") V then scaling_max_freq st else b.
Proof.
  intros Hwf Hr Hs.
  destruct (starts_with (chars "696000") V) eqn:Ep.
  - apply starts_with_iff in Ep as [rest ->].
    destruct (screen_off_keeps K m st 0 b st1 Hr) as (st' & t & E & _ & _ & Hgl);
      [intros _; now exists rest|].
    exists st'. split; [exact E|].
    unfold globals in Hgl. now injection Hgl.
  - destruct (screen_off_saves K m st b st1 V Hwf Hr Hs)
      as (st' & t & E & _ & _ & Hsv & _).
    + intros rest ->.
      assert (Ht : starts_with (chars "696000") (chars "696000" ++ rest) = true)
        by (apply starts_with_iff; now exists rest).
      rewrite Ht in Ep. discriminate Ep.
    + now exists st'.
Qed.

Lemma screen_off_saves_unless_prefixed_witness :
  wf_state initial_state /\
  c_string (out_buffer (read_max_freq k_overclocked initial_state))
    = Some (chars (nl "6960000")) /\
  exists st',
    sun4i_power_set_interactive k_overclocked TheModule 0 initial_state
      = Done tt st' /\
    scaling_max_freq st' = scaling_max_freq initial_state.
Proof.
  split; [split; reflexivity|]. split; [reflexivity|].
  apply (screen_off_saves_unless_prefixed k_overclocked TheModule initial_state
           (final (read_max_freq k_overclocked initial_state))
           (out_buffer (read_max_freq k_overclocked initial_state))
           (chars (nl "6960000"))).
  - split; reflexivity.
  - reflexivity.
  - reflexivity.
Defined.

(** From a state whose static arrays have MAX_BUF_SZ bytes and whose saved
    frequency is a string, sun4i_power_set_interactive returns for every
    [on] and every kernel; the resulting state has the same two
    properties; no descriptor is left open; and the governor cache, the
    boost-pulse handle and the warned flag are untouched. *)
Theorem set_interactive_safe (K : kernel) (m : modref) (on : Z) (st : state) :
  wf_state st ->
  holds_string (scaling_max_freq st) ->
  exists st' t,
    sun4i_power_set_interactive K m on st = Done tt st' /\
    wf_state st' /\
    holds_string (scaling_max_freq st') /\
    trace st' = trace st ++ t /\
    (forall acc, unclosed t acc = acc) /\
    current_governor st' = current_governor st /\
    boostpulse_fd st' = boostpulse_fd st /\
    boostpulse_warned st' = boostpulse_warned st.
Proof.
  intros Hwf [text Htext].
  assert (Hkeep : forall s', globals s' = globals st ->
            wf_state s' /\ holds_string (scaling_max_freq s') /\
            current_governor s' = current_governor st /\
            boostpulse_fd s' = boostpulse_fd st /\
            boostpulse_warned s' = boostpulse_warned st).
  { intros s' Hgl. unfold globals in Hgl. injection Hgl as E1 E2 E3 E4.
    destruct Hwf as [H1 H2]. unfold wf_state, holds_string.
    rewrite E1, E2, E3, E4. repeat split; try assumption. now exists text. }
  destruct (Z.eq_dec on 0) as [->|Hon].
  - destruct (sysfs_read_spec K SCALINGMAXFREQ (auto_array MAX_BUF_SZ)
                (Z.of_nat MAX_BUF_SZ) st max_buf_bounds)
      as ([e|d] & tr & st1 & Hr & Har & Htr & Hgl).
    + destruct (screen_off_keeps K m st (-1) _ st1 Hr)
        as (st' & t & E & Htr' & Haw & Hgl'); [intro H; now contradiction H|].
      destruct (Hkeep st' Hgl') as (W & S & G & F & B).
      exists st', (tr ++ t). split; [exact E|]. split; [exact W|].
      split; [exact S|]. split; [now rewrite Htr', Htr, app_assoc|].
      split; [|now repeat split].
      intro acc. rewrite unclosed_app, (attr_read_closed _ _ _ _ _ Har).
      apply (attr_write_closed _ _ _ _ Haw).
    + destruct Hr as [Hr _].
      set (b := map Some d
                  ++ Some NUL :: skipn (S (List.length d))
                                   (auto_array MAX_BUF_SZ)) in *.
      assert (Hs : c_string b = Some (until_nul d)) by apply c_string_until.
      destruct (maxfreq_read_inv K st 0 b st1 Hr) as (_ & Hlb & _).
      destruct (starts_with (chars "696000") (until_nul d)) eqn:Ep.
      * apply starts_with_iff in Ep as [rest Ep].
        destruct (screen_off_keeps K m st 0 b st1 Hr)
          as (st' & t & E & Htr' & Haw & Hgl');
          [intros _; exists rest; now rewrite Hs, Ep|].
        destruct (Hkeep st' Hgl') as (W & S & G & F & B).
        exists st', (tr ++ t). split; [exact E|]. split; [exact W|].
        split; [exact S|]. split; [now rewrite Htr', Htr, app_assoc|].
        split; [|now repeat split].
        intro acc. rewrite unclosed_app, (attr_read_closed _ _ _ _ _ Har).
        apply (attr_write_closed _ _ _ _ Haw).
      * destruct (screen_off_saves K m st b st1 (until_nul d) Hwf Hr Hs)
          as (st' & t & E & Htr' & Haw & Hsv & G & F & B).
        { intros rest Hp.
          assert (Ht : starts_with (chars "696000") (until_nul d) = true)
            by (apply starts_with_iff; now exists rest).
          rewrite Ht in Ep. discriminate Ep. }
        exists st', (tr ++ t). split; [exact E|].
        split; [split; [now rewrite Hsv|rewrite G; apply Hwf]|].
        split; [exists (until_nul d); now rewrite Hsv|].
        split; [now rewrite Htr', Htr, app_assoc|].
        split; [|now repeat split].
        intro acc. rewrite unclosed_app, (attr_read_closed _ _ _ _ _ Har).
        apply (attr_write_closed _ _ _ _ Haw).
  - destruct (screen_on_writes K m on st text Hon Htext)
      as (st' & t & E & Htr & Haw & Hgl).
    destruct (Hkeep st' Hgl) as (W & S & G & F & B).
    exists st', t. split; [exact E|]. split; [exact W|]. split; [exact S|].
    split; [exact Htr|]. split; [|now repeat split].
    intro acc. apply (attr_write_closed _ _ _ _ Haw).
Qed.

Lemma set_interactive_safe_witness :
  wf_state initial_state /\
  holds_string (scaling_max_freq initial_state) /\
  exists st' t,
    sun4i_power_set_interactive k_unreadable TheModule 0 initial_state
      = Done tt st' /\
    wf_state st' /\
    holds_string (scaling_max_freq st') /\
    trace st' = trace initial_state ++ t /\
    (forall acc, unclosed t acc = acc) /\
    current_governor st' = current_governor initial_state /\
    boostpulse_fd st' = boostpulse_fd initial_state /\
    boostpulse_warned st' = boostpulse_warned initial_state.
Proof.
  split; [split; reflexivity|].
  split; [exists (chars "1008000"); reflexivity|].
  apply (set_interactive_safe k_unreadable TheModule 0 initial_state).
  - split; reflexivity.
  - exists (chars "1008000"). reflexivity.
Defined.

(** ** The boost-pulse handle *)

Module HandleFacts.

(** Comparison of the first [length p] characters of a string [p ...]
    against a string: 0 exactly when [p] starts the second string. *)
Lemma strncmp_prefix_l (p : list ascii) :
  ~ In NUL p ->
  forall (a : list ascii) (r1 r2 : buffer),
  exists z,
    strncmp (map Some p ++ r1) (map Some a ++ Some NUL :: r2)
            (List.length p) = Some z /\
    (z = 0 <-> starts_with p a = true).
Proof.
  induction p as [|c p IH]; intros Hp a r1 r2.
  - exists 0. now split.
  - assert (Hc : c <> NUL) by (intro E; apply Hp; left; now symmetry).
    assert (Hp' : ~ In NUL p) by (intro; apply Hp; now right).
    destruct a as [|d a]; cbn [map app List.length starts_with].
    + destruct (strncmp_differ c NUL (map Some p ++ r1) r2 (List.length p) Hc)
        as (z & Hz & Hnz).
      exists z. split; [assumption|]. split; [contradiction|discriminate].
    + destruct (Ascii.eqb c d) eqn:E.
      * apply Ascii.eqb_eq in E. subst d.
        rewrite strncmp_same by assumption. cbn [andb].
        apply IH. assumption.
      * apply Ascii.eqb_neq in E.
        destruct (strncmp_differ c d (map Some p ++ r1)
                    (map Some a ++ Some NUL :: r2) (List.length p) E)
          as (z & Hz & Hnz).
        exists z. split; [assumption|]. cbn [andb].
        split; [contradiction|discriminate].
Qed.

Lemma opened_app t1 t2 : opened (t1 ++ t2) = opened t1 ++ opened t2.
Proof.
  induction t1 as [|[p fl r| | |] t1 IH]; cbn [app opened];
    now rewrite ?IH.
Qed.

Lemma attr_write_path p text t : attr_write p text t -> opened t = [p].
Proof. now intros []. Qed.

Section WithKernel.

Variable K : kernel.

Lemma boostpulse_open_cached st :
  0 <= boostpulse_fd st ->
  boostpulse_open K TheModule st = Done (boostpulse_fd st) st.
Proof.
  intro Hfd. unfold boostpulse_open.
  cbn [pthread_mutex_lock pthread_mutex_unlock load_fd].
  rewrite bind_ret, bind_get.
  rewrite (proj2 (Z.ltb_ge _ _) Hfd).
  now rewrite !bind_ret.
Qed.

Lemma sys_write_event fd text st :
  exists r rw st2,
    sys_write K fd text st = Done r st2 /\
    trace st2 = trace st ++ [EvWrite fd text rw].
Proof.
  unfold sys_write.
  destruct (k_write K (trace st) fd text) as [e|n];
    eexists _, _, _; split; reflexivity.
Qed.

(** A boost hint on an open handle: the write to the handle comes first,
    and the only file opened is the GPU boost-pulse file. *)
Lemma hint_on_cached_handle hint data st :
  is_boost hint = true -> 0 <= boostpulse_fd st ->
  exists st' rw t,
    sun4i_power_hint K TheModule hint data st = Done tt st' /\
    trace st' = trace st
                  ++ EvWrite (boostpulse_fd st) (duration_text data) rw :: t /\
    opened t = [BOOSTPULSE_MALI].
Proof.
  intros Hh Hfd.
  pose proof (boostpulse_open_cached st Hfd) as Ho.
  destruct (sys_write_event (boostpulse_fd st) (duration_text data) st)
    as (r & rw & st2 & Hw & Htr2).
  destruct (Z.lt_ge_cases r 0) as [Hr|Hr].
  - destruct (hint_after_failed_write K hint data st _ st r st2 Hh Ho Hfd Hw Hr)
      as (st' & t & E & Htr & Haw & _).
    exists st', rw, (EvClose (boostpulse_fd st) :: t).
    split; [exact E|]. split; [now rewrite Htr, Htr2, <- app_assoc|].
    cbn [opened]. apply (attr_write_path _ _ _ Haw).
  - destruct (hint_after_write K hint data st _ st r st2 Hh Ho Hfd Hw Hr)
      as (st' & t & E & Htr & Haw & _).
    exists st', rw, t.
    split; [exact E|]. split; [now rewrite Htr, Htr2, <- app_assoc|].
    apply (attr_write_path _ _ _ Haw).
Qed.

End WithKernel.

End HandleFacts.
Import HandleFacts.

(** With the boost-pulse handle open, a boost hint returns without looking
    at the governor: its first system call is the write of the duration
    text to the handle, and the only file it opens is the GPU boost-pulse
    file. *)
Theorem hint_uses_cached_handle (K : kernel) (hint : power_hint_t)
        (data : Z) (st : state) :
  is_boost hint = true ->
  0 <= boostpulse_fd st ->
  exists st' rw t,
    sun4i_power_hint K TheModule hint data st = Done tt st' /\
    trace st' = trace st
                  ++ EvWrite (boostpulse_fd st) (duration_text data) rw :: t /\
    opened t = [BOOSTPULSE_MALI].
Proof. intros Hh Hfd. now apply hint_on_cached_handle. Qed.

Lemma hint_uses_cached_handle_witness :
  boostpulse_fd st_handle = 7 /\
  exists st' rw t,
    sun4i_power_hint k_interactive TheModule POWER_HINT_CPU_BOOST 250 st_handle
      = Done tt st' /\
    trace st' = trace st_handle
                  ++ EvWrite (boostpulse_fd st_handle) (duration_text 250) rw
                       :: t /\
    opened t = [BOOSTPULSE_MALI].
Proof.
  split; [reflexivity|].
  apply (hint_uses_cached_handle k_interactive POWER_HINT_CPU_BOOST 250
           st_handle).
  - reflexivity.
  - apply Z.leb_le. reflexivity.
Defined.



(** ** Acquiring the handle *)

Module AcquireFacts.

Section WithKernel.

Variable K : kernel.

(** boostpulse_open without a handle, up to the governor read. *)
Lemma boostpulse_open_slow st r g sa :
  boostpulse_fd st < 0 ->
  get_scaling_governor K (auto_array 80) 80 st = Done (r, g) sa ->
  boostpulse_open K TheModule st =
    ((if r <? 0 then store_warned TheModule 1
      else
        cur <- get current_governor ;;
        n <- lift BadString (strlen g) ;;
        c <- lift BadString (strncmp g cur n) ;;
        (if negb (c =? 0) then sun4i_power_init K Indeterminate else ret tt) ;;
        c1 <- lift BadString (strncmp g (lit "interactive") 80) ;;
        (if c1 =? 0 then
           fd' <- sys_open K BOOSTPULSE_INTERACTIVE O_WRONLY ;;
           store_fd TheModule fd'
         else
           c2 <- lift BadString (strncmp g (lit "ondemand") 80) ;;
           if c2 =? 0 then
             fd' <- sys_open K BOOSTPULSE_ONDEMAND O_WRONLY ;;
             store_fd TheModule fd'
           else ret tt) ;;
        fd1 <- load_fd TheModule ;;
        w <- load_warned TheModule ;;
        if (fd1 <? 0) && (w =? 0) then store_warned TheModule 1 else ret tt) ;;
     pthread_mutex_unlock TheModule ;;
     load_fd TheModule) sa.
Proof.
  intros Hfd Hg. unfold boostpulse_open.
  cbn [pthread_mutex_lock load_fd]. rewrite bind_ret, bind_get.
  rewrite (proj2 (Z.ltb_lt _ _) Hfd).
  rewrite bind_assoc, (bind_done _ _ _ _ _ Hg). reflexivity.
Qed.

(** The last step of a boostpulse_open that went through the open path:
    a negative handle leaves the warned flag set. *)
Lemma warn_step sx s1 :
  (fd1 <- load_fd TheModule ;;
   w <- load_warned TheModule ;;
   if (fd1 <? 0) && (w =? 0) then store_warned TheModule 1 else ret tt) sx
  = Done tt s1 ->
  boostpulse_fd s1 = boostpulse_fd sx /\
  (boostpulse_fd s1 < 0 -> boostpulse_warned s1 <> 0).
Proof.
  cbn [load_fd load_warned]. rewrite !bind_get.
  destruct (boostpulse_fd sx <? 0) eqn:E1; cbn [andb].
  - destruct (boostpulse_warned sx =? 0) eqn:E2.
    + cbn. intros [= <-]. cbn. split; [reflexivity|]. intros _. discriminate.
    + cbn. intros [= <-]. split; [reflexivity|].
      intros _. now apply Z.eqb_neq.
  - cbn. intros [= <-]. split; [reflexivity|].
    apply Z.ltb_ge in E1. lia.
Qed.

(** A boostpulse_open that returns a negative handle leaves the warned
    flag set. *)
Lemma boostpulse_open_unavailable st fd' s' :
  boostpulse_open K TheModule st = Done fd' s' -> fd' < 0 ->
  boostpulse_fd s' = fd' /\ boostpulse_warned s' <> 0.
Proof.
  intros Ho Hneg.
  pose proof (boostpulse_open_returns_fd K st fd' s' Ho) as Hfd'.
  split; [now symmetry|].
  destruct (Z.lt_ge_cases (boostpulse_fd st) 0) as [Hfd|Hfd].
  - assert (Hn : 1 <= 80 <= Z.of_nat (List.length (auto_array 80)))
      by (cbn; lia).
    destruct (get_scaling_governor_done K (auto_array 80) 80 st Hn)
      as (r & g & sa & Hg & _).
    rewrite (boostpulse_open_slow st r g sa Hfd Hg) in Ho.
    apply bind_inv in Ho as ([] & s1 & Hb & Ho).
    cbn [pthread_mutex_unlock load_fd] in Ho. rewrite bind_ret in Ho.
    cbn in Ho. injection Ho as _ <-.
    destruct (r <? 0).
    + cbn in Hb. injection Hb as <-. cbn. discriminate.
    + do 6 (apply bind_inv in Hb as (? & ? & _ & Hb)).
      destruct (warn_step _ _ Hb) as (_ & Hw). apply Hw. lia.
  - rewrite (boostpulse_open_cached K st Hfd) in Ho.
    injection Ho as <- <-. lia.
Qed.

End WithKernel.

End AcquireFacts.
Import AcquireFacts.

(** A boost hint that finds no handle and cannot read the governor sets
    boostpulse_warned to 1 and returns: the handle stays unopened, nothing
    is opened for writing, and the rest of the module data is unchanged. *)
Theorem hint_unreadable_governor (K : kernel) (hint : power_hint_t)
        (data : Z) (st st1 : state) (r : Z) (g : buffer) :
  is_boost hint = true ->
  boostpulse_fd st < 0 ->
  get_scaling_governor K (auto_array 80) 80 st = Done (r, g) st1 ->
  r < 0 ->
  exists st',
    sun4i_power_hint K TheModule hint data st = Done tt st' /\
    boostpulse_warned st' = 1 /\
    boostpulse_fd st' = boostpulse_fd st /\
    scaling_max_freq st' = scaling_max_freq st /\
    current_governor st' = current_governor st /\
    trace st' = trace st1 /\
    opened_for_write (trace st') = opened_for_write (trace st).
Proof.
  intros Hh Hfd Hg Hr.
  assert (Hn : 1 <= 80 <= Z.of_nat (List.length (auto_array 80)))
    by (cbn; lia).
  destruct (get_scaling_governor_inv K _ _ _ _ _ _ Hn Hg)
    as (_ & _ & Hgl & rr & tr & Hat & Htr).
  unfold globals in Hgl. injection Hgl as E1 E2 E3 E4.
  pose proof (boostpulse_open_slow K st r g st1 Hfd Hg) as Ho.
  rewrite (proj2 (Z.ltb_lt _ _) Hr) in Ho.
  match type of Ho with
  | _ = ?rhs => remember rhs as out eqn:Eo
  end.
  cbn in Eo. unfold get in Eo. cbn in Eo. rewrite E3 in Eo. subst out.
  eexists. split.
  - destruct hint; try discriminate Hh; unfold sun4i_power_hint;
      rewrite (bind_done _ _ _ _ _ Ho);
      rewrite (proj2 (Z.leb_gt _ _) Hfd); reflexivity.
  - cbn. repeat (split; [assumption || reflexivity|]).
    rewrite Htr, opened_for_write_app, (attr_read_opened _ _ _ _ Hat).
    apply app_nil_r.
Qed.

Lemma hint_unreadable_governor_witness :
  exists st',
    sun4i_power_hint k_unreadable TheModule POWER_HINT_INTERACTION 0
                     initial_state = Done tt st' /\
    boostpulse_warned st' = 1 /\
    boostpulse_fd st' = boostpulse_fd initial_state /\
    scaling_max_freq st' = scaling_max_freq initial_state /\
    current_governor st' = current_governor initial_state /\
    trace st' = trace (final (get_scaling_governor k_unreadable (auto_array 80)
                                80 initial_state)) /\
    opened_for_write (trace st') = opened_for_write (trace initial_state).
Proof.
  apply (hint_unreadable_governor k_unreadable POWER_HINT_INTERACTION 0
           initial_state
           (final (get_scaling_governor k_unreadable (auto_array 80) 80
                     initial_state))
           (-1) (auto_array 80)).
  - reflexivity.
  - cbn. lia.
  - reflexivity.
  - lia.
Defined.

(** Whenever boostpulse_open returns without a handle (governor unreadable
    or without a boost-pulse file, or the open failed), the warned flag is
    set, and the boost hint ends there: it writes nothing to the handle or
    to the GPU boost-pulse file. *)
Theorem hint_without_handle (K : kernel) (hint : power_hint_t) (data : Z)
        (st s' : state) (fd' : Z) :
  is_boost hint = true ->
  boostpulse_open K TheModule st = Done fd' s' ->
  fd' < 0 ->
  sun4i_power_hint K TheModule hint data st = Done tt s' /\
  boostpulse_fd s' < 0 /\
  boostpulse_warned s' <> 0.
Proof.
  intros Hh Ho Hneg.
  destruct (boostpulse_open_unavailable K st fd' s' Ho Hneg) as (Hfd & Hw).
  split; [|split; [lia|exact Hw]].
  destruct hint; try discriminate Hh; unfold sun4i_power_hint;
    rewrite (bind_done _ _ _ _ _ Ho);
    rewrite (proj2 (Z.leb_gt _ _) Hneg); reflexivity.
Qed.

Lemma hint_without_handle_witness :
  opened (trace (final (boostpulse_open k_no_boostpulse TheModule st_tuned)))
    = opened (trace st_tuned) ++ [SCALING_GOVERNOR; BOOSTPULSE_INTERACTIVE] /\
  sun4i_power_hint k_no_boostpulse TheModule POWER_HINT_INTERACTION 0 st_tuned
    = Done tt (final (boostpulse_open k_no_boostpulse TheModule st_tuned)) /\
  boostpulse_fd (final (boostpulse_open k_no_boostpulse TheModule st_tuned))
    < 0 /\
  boostpulse_warned (final (boostpulse_open k_no_boostpulse TheModule
                              st_tuned)) <> 0.
Proof.
  split; [reflexivity|].
  apply (hint_without_handle k_no_boostpulse POWER_HINT_INTERACTION 0
           st_tuned
           (final (boostpulse_open k_no_boostpulse TheModule st_tuned)) (-1)).
  - reflexivity.
  - reflexivity.
  - lia.
Defined.

(** ** Re-tuning on a changed governor *)

Module RetuneFacts.

Lemma bind_fault {A B} (m : M A) (k : A -> M B) s w s' :
  m s = Undefined w s' -> bind m k s = Undefined w s'.
Proof. intro H. unfold bind. now rewrite H. Qed.

Lemma bind_ext {A B} (m : M A) (k k' : A -> M B) s :
  (forall a s', k a s' = k' a s') -> bind m k s = bind m k' s.
Proof. intro H. unfold bind. destruct (m s); [apply H|reflexivity]. Qed.

(** Equates two sequences that differ in the nesting of their binds. *)
Ltac same_sequence :=
  repeat (rewrite ?bind_assoc;
          first [reflexivity | apply bind_ext; intros ? ?]).

Section WithKernel.

Variable K : kernel.

(** The comparison of boostpulse_open between the governor read and the
    cache: 0 exactly when the name read starts the cached name. *)
Lemma governor_compare st g sa name cached :
  get_scaling_governor K (auto_array 80) 80 st = Done (0, g) sa ->
  c_string g = Some name ->
  c_string (current_governor st) = Some cached ->
  exists z,
    strncmp g (current_governor sa) (List.length name) = Some z /\
    (z = 0 <-> starts_with name cached = true).
Proof.
  intros Hg Hs Hc.
  assert (Hn : 1 <= 80 <= Z.of_nat (List.length (auto_array 80)))
    by (cbn; lia).
  destruct (get_scaling_governor_inv K _ _ _ _ _ _ Hn Hg)
    as (_ & _ & Hgl & _).
  unfold globals in Hgl. injection Hgl as _ -> _ _.
  destruct (c_string_inv _ _ Hs) as (Hf & rest & ->).
  destruct (c_string_inv _ _ Hc) as (_ & rest' & ->).
  apply strncmp_prefix_l. exact Hf.
Qed.

(** boostpulse_open without a handle, from the governor comparison on. *)
Lemma boostpulse_open_compared st g sa name z :
  boostpulse_fd st < 0 ->
  get_scaling_governor K (auto_array 80) 80 st = Done (0, g) sa ->
  c_string g = Some name ->
  strncmp g (current_governor sa) (List.length name) = Some z ->
  boostpulse_open K TheModule st =
    ((if negb (z =? 0) then sun4i_power_init K Indeterminate else ret tt) ;;
     c1 <- lift BadString (strncmp g (lit "interactive") 80) ;;
     (if c1 =? 0 then
        fd' <- sys_open K BOOSTPULSE_INTERACTIVE O_WRONLY ;;
        store_fd TheModule fd'
      else
        c2 <- lift BadString (strncmp g (lit "ondemand") 80) ;;
        if c2 =? 0 then
          fd' <- sys_open K BOOSTPULSE_ONDEMAND O_WRONLY ;;
          store_fd TheModule fd'
        else ret tt) ;;
     fd1 <- load_fd TheModule ;;
     w <- load_warned TheModule ;;
     (if (fd1 <? 0) && (w =? 0) then store_warned TheModule 1 else ret tt) ;;
     pthread_mutex_unlock TheModule ;;
     load_fd TheModule) sa.
Proof.
  intros Hfd Hg Hs Hz.
  rewrite (boostpulse_open_slow K st 0 g sa Hfd Hg).
  cbn [Z.ltb Z.compare].
  rewrite !bind_assoc, bind_get, (strlen_c_string _ _ Hs).
  cbn [lift]. rewrite !bind_assoc, bind_ret, Hz.
  cbn [lift]. rewrite !bind_assoc, bind_ret.
  same_sequence.
Qed.

(** The selection of the boost-pulse file by the two literal comparisons. *)
Lemma boost_file_selected g name path (k : unit -> M Z) s :
  c_string g = Some name ->
  boost_path name = Some path ->
  (c1 <- lift BadString (strncmp g (lit "interactive") 80) ;;
   (if c1 =? 0 then
      fd' <- sys_open K BOOSTPULSE_INTERACTIVE O_WRONLY ;;
      store_fd TheModule fd'
    else
      c2 <- lift BadString (strncmp g (lit "ondemand") 80) ;;
      if c2 =? 0 then
        fd' <- sys_open K BOOSTPULSE_ONDEMAND O_WRONLY ;;
        store_fd TheModule fd'
      else ret tt) ;;
   k tt) s
  = (fd' <- sys_open K path O_WRONLY ;; store_fd TheModule fd' ;; k tt) s.
Proof.
  intros Hs Hp.
  destruct (c_string_inv _ _ Hs) as (Hf & rest & Hgeq).
  destruct (strncmp_lit (chars "interactive")
              ltac:(now apply nul_free_chars) name rest 80 Hf
              ltac:(cbn; lia)) as (c1 & Hc1 & Hc1iff).
  destruct (strncmp_lit (chars "ondemand")
              ltac:(now apply nul_free_chars) name rest 80 Hf
              ltac:(cbn; lia)) as (c2 & Hc2 & Hc2iff).
  change (map Some (chars "interactive") ++ [Some NUL])
    with (lit "interactive") in Hc1.
  change (map Some (chars "ondemand") ++ [Some NUL])
    with (lit "ondemand") in Hc2.
  rewrite <- Hgeq in Hc1, Hc2.
  rewrite Hc1. cbn [lift]. rewrite bind_ret.
  unfold boost_path in Hp.
  destruct (list_eq_dec ascii_dec name (chars "interactive")) as [En|En].
  - injection Hp as <-. rewrite (proj2 Hc1iff En). cbn [Z.eqb].
    now rewrite !bind_assoc.
  - assert (Hz : (c1 =? 0) = false)
      by (apply Z.eqb_neq; intro Hz; now apply En, Hc1iff).
    rewrite Hz, !bind_assoc, Hc2. cbn [lift]. rewrite bind_ret.
    destruct (list_eq_dec ascii_dec name (chars "ondemand")) as [Eo|Eo];
      [|discriminate Hp].
    injection Hp as <-. rewrite (proj2 Hc2iff Eo). cbn [Z.eqb].
    now rewrite !bind_assoc.
Qed.

End WithKernel.

End RetuneFacts.
Import RetuneFacts.

(** Without a handle, when the governor read names a governor with a
    boost-pulse file and that name starts the cached name (in particular
    when the governor is the cached one), boostpulse_open does not re-run
    sun4i_power_init: after the governor read its only system call is the
    open of the boost-pulse file, whose result it returns; the governor
    cache is untouched. *)
Theorem acquisition_without_retune (K : kernel) (st sa : state) (g : buffer)
        (name cached : list ascii) (path : string) :
  boostpulse_fd st < 0 ->
  get_scaling_governor K (auto_array 80) 80 st = Done (0, g) sa ->
  c_string g = Some name ->
  c_string (current_governor st) = Some cached ->
  starts_with name cached = true ->
  boost_path name = Some path ->
  exists r s',
    boostpulse_open K TheModule st
      = Done (match r with Gives n => Z.of_N n | Fails _ => -1 end) s' /\
    trace s' = trace sa ++ [EvOpen path O_WRONLY r] /\
    current_governor s' = current_governor st.
Proof.
  intros Hfd Hg Hs Hc Hpre Hp.
  destruct (governor_compare K st g sa name cached Hg Hs Hc)
    as (z & Hz & Hziff).
  assert (z = 0) as -> by now apply Hziff.
  rewrite (boostpulse_open_compared K st g sa name 0 Hfd Hg Hs Hz).
  cbn [Z.eqb negb]. rewrite bind_ret.
  rewrite (boost_file_selected K g name path
             (fun _ =>
                fd1 <- load_fd TheModule ;;
                w <- load_warned TheModule ;;
                (if (fd1 <? 0) && (w =? 0) then store_warned TheModule 1
                 else ret tt) ;;
                pthread_mutex_unlock TheModule ;;
                load_fd TheModule) sa Hs Hp).
  assert (Hn : 1 <= 80 <= Z.of_nat (List.length (auto_array 80)))
    by (cbn; lia).
  destruct (get_scaling_governor_inv K _ _ _ _ _ _ Hn Hg)
    as (_ & _ & Hgl & _).
  unfold globals in Hgl. injection Hgl as _ Hcur _ _.
  exists (k_open K (trace sa) path O_WRONLY).
  unfold bind at 1, sys_open.
  destruct (k_open K (trace sa) path O_WRONLY) as [e|n].
  - destruct (boostpulse_warned sa =? 0) eqn:Ew;
      eexists; (split; [cbn; unfold bind, get; cbn; rewrite Ew; reflexivity|]);
      cbn; now split.
  - eexists. split.
    + cbn. unfold bind, get. cbn. rewrite of_N_ltb. reflexivity.
    + cbn. now split.
Qed.

Lemma acquisition_without_retune_witness :
  boostpulse_fd st_tuned < 0 /\
  c_string (current_governor st_tuned) = Some (chars "interactive") /\
  exists r s',
    boostpulse_open k_interactive TheModule st_tuned
      = Done (match r with Gives n => Z.of_N n | Fails _ => -1 end) s' /\
    trace s' = trace (final (get_scaling_governor k_interactive
                               (auto_array 80) 80 st_tuned))
                 ++ [EvOpen BOOSTPULSE_INTERACTIVE O_WRONLY r] /\
    current_governor s' = current_governor st_tuned.
Proof.
  split; [reflexivity|]. split; [reflexivity|].
  apply (acquisition_without_retune k_interactive st_tuned
           (final (get_scaling_governor k_interactive (auto_array 80) 80
                     st_tuned))
           (out_buffer (get_scaling_governor k_interactive (auto_array 80) 80
                          st_tuned))
           (chars "interactive") (chars "interactive")
           BOOSTPULSE_INTERACTIVE).
  - reflexivity.
  - reflexivity.
  - reflexivity.
  - reflexivity.
  - reflexivity.
  - reflexivity.
Defined.

(** Without a handle, when the name read does not start the cached name,
    boostpulse_open re-runs sun4i_power_init, which reads the governor a
    second time.  If that second read fails, the boost hint does not
    return: sun4i_power_init stores the warned flag through its unassigned
    pointer. *)
Theorem retune_with_vanished_governor (K : kernel) (hint : power_hint_t)
        (data : Z) (st sa sb : state) (g g2 : buffer)
        (name cached : list ascii) (r2 : Z) :
  is_boost hint = true ->
  boostpulse_fd st < 0 ->
  get_scaling_governor K (auto_array 80) 80 st = Done (0, g) sa ->
  c_string g = Some name ->
  c_string (current_governor st) = Some cached ->
  starts_with name cached = false ->
  get_scaling_governor K (auto_array 80) 80 sa = Done (r2, g2) sb ->
  r2 < 0 ->
  sun4i_power_hint K TheModule hint data st = Undefined WildPointer sb.
Proof.
  intros Hh Hfd Hg Hs Hc Hpre Hg2 Hr2.
  destruct (governor_compare K st g sa name cached Hg Hs Hc)
    as (z & Hz & Hziff).
  assert (Hnz : (z =? 0) = false).
  { apply Z.eqb_neq. intro E. apply Hziff in E. congruence. }
  assert (Hi : sun4i_power_init K Indeterminate sa = Undefined WildPointer sb).
  { unfold sun4i_power_init. rewrite (bind_done _ _ _ _ _ Hg2).
    now rewrite (proj2 (Z.ltb_lt _ _) Hr2). }
  assert (Ho : boostpulse_open K TheModule st = Undefined WildPointer sb).
  { rewrite (boostpulse_open_compared K st g sa name z Hfd Hg Hs Hz).
    rewrite Hnz. cbn [negb]. now apply bind_fault. }
  destruct hint; try discriminate Hh; unfold sun4i_power_hint;
    now apply bind_fault.
Qed.

Lemma retune_with_vanished_governor_witness :
  c_string (out_buffer (get_scaling_governor k_vanishing (auto_array 80) 80
                          initial_state)) = Some (chars "interactive") /\
  c_string (current_governor initial_state) = Some [] /\
  sun4i_power_hint k_vanishing TheModule POWER_HINT_INTERACTION 0
                   initial_state
    = Undefined WildPointer
        (final (get_scaling_governor k_vanishing (auto_array 80) 80
                  (final (get_scaling_governor k_vanishing (auto_array 80) 80
                            initial_state)))).
Proof.
  split; [reflexivity|]. split; [reflexivity|].
  apply (retune_with_vanished_governor k_vanishing POWER_HINT_INTERACTION 0
           initial_state
           (final (get_scaling_governor k_vanishing (auto_array 80) 80
                     initial_state))
           (final (get_scaling_governor k_vanishing (auto_array 80) 80
                     (final (get_scaling_governor k_vanishing (auto_array 80)
                               80 initial_state))))
           (out_buffer (get_scaling_governor k_vanishing (auto_array 80) 80
                          initial_state))
           (auto_array 80) (chars "interactive") [] (-1)).
  - reflexivity.
  - cbn. lia.
  - reflexivity.
  - reflexivity.
  - reflexivity.
  - reflexivity.
  - reflexivity.
  - lia.
Defined.

(** ** Outcomes of initialisation *)

(** From a state whose static arrays have MAX_BUF_SZ bytes,
    sun4i_power_init either returns (the governor was read, whatever its
    name) or stops at the store through its unassigned pointer (the
    governor could not be read).  It never leaves an array and never
    applies a string function to an array without a terminator. *)
Theorem init_outcomes (K : kernel) (m : modref) (st : state) :
  wf_state st ->
  (exists g st1 st',
      get_scaling_governor K (auto_array 80) 80 st = Done (0, g) st1 /\
      sun4i_power_init K m st = Done tt st' /\ wf_state st')
  \/
  (exists g st1,
      get_scaling_governor K (auto_array 80) 80 st = Done (-1, g) st1 /\
      sun4i_power_init K m st = Undefined WildPointer st1).
Proof.
  intro Hwf.
  assert (Hn : 1 <= 80 <= Z.of_nat (List.length (auto_array 80)))
    by (cbn; lia).
  destruct (get_scaling_governor_done K (auto_array 80) 80 st Hn)
    as (r & g & st1 & Hg & _ & [[-> _]|[-> [name Hs]]] & _).
  - right. exists g, st1. split; [exact Hg|].
    unfold sun4i_power_init. now rewrite (bind_done _ _ _ _ _ Hg).
  - left.
    destruct (sun4i_power_init_tunes K m st g st1 name Hwf Hg Hs)
      as (st' & _ & _ & _ & E & _).
    exists g, st1, st'. split; [exact Hg|]. split; [exact E|].
    destruct (wf_state_invariant K st Hwf) as (Hi & _).
    specialize (Hi m). now rewrite E in Hi.
Qed.

Lemma init_outcomes_witness :
  wf_state initial_state /\
  ((exists g st1 st',
       get_scaling_governor k_ondemand (auto_array 80) 80 initial_state
         = Done (0, g) st1 /\
       sun4i_power_init k_ondemand TheModule initial_state = Done tt st' /\
       wf_state st')
   \/
   (exists g st1,
       get_scaling_governor k_ondemand (auto_array 80) 80 initial_state
         = Done (-1, g) st1 /\
       sun4i_power_init k_ondemand TheModule initial_state
         = Undefined WildPointer st1)).
Proof.
  split; [split; reflexivity|].
  apply (init_outcomes k_ondemand TheModule initial_state).
  split; reflexivity.
Defined.

(** ** Repeated screen-off calls *)

(** Screen off twice and then on: when the first screen-off call reads a
    frequency text V that does not start with "696000" and the second one
    reads the screen-off frequency back (or cannot read), the screen-on
    call makes the best-effort write of exactly V. *)
Theorem screen_off_twice_then_on (K : kernel) (m : modref) (on : Z)
        (st st1 st2 st3 : state) (b b2 : buffer) (V : list ascii) (r2 : Z) :
  wf_state st ->
  read_max_freq K st = Done (0, b) st1 ->
  c_string b = Some V ->
  starts_with (chars "696000") V = false ->
  sun4i_power_set_interactive K m 0 st = Done tt st2 ->
  read_max_freq K st2 = Done (r2, b2) st3 ->
  (r2 <> -1 -> exists rest, c_string b2 = Some (chars "696000" ++ rest)) ->
  on <> 0 ->
  exists st4 st5 t,
    sun4i_power_set_interactive K m 0 st2 = Done tt st4 /\
    sun4i_power_set_interactive K m on st4 = Done tt st5 /\
    trace st5 = trace st4 ++ t /\
    attr_write SCALINGMAXFREQ V t.
Proof.
  intros Hwf Hr Hs Hnp E2 Hr2 Hpre Hon.
  destruct (screen_off_saves K m st b st1 V Hwf Hr Hs)
    as (st2' & t0 & E2' & _ & _ & Hsaved & _).
  { intros rest ->.
    assert (Ht : starts_with (chars "696000") (chars "696000" ++ rest) = true)
      by (apply starts_with_iff; now exists rest).
    rewrite Ht in Hnp. discriminate Hnp. }
  rewrite E2 in E2'. injection E2' as <-.
  destruct (screen_off_keeps K m st2 r2 b2 st3 Hr2 Hpre)
    as (st4 & t4 & E4 & _ & _ & Hgl).
  assert (Hs4 : c_string (scaling_max_freq st4) = Some V).
  { unfold globals in Hgl. injection Hgl as -> _ _ _. now rewrite Hsaved. }
  destruct (screen_on_writes K m on st4 V Hon Hs4)
    as (st5 & t & E5 & Htr & Haw & _).
  now exists st4, st5, t.
Qed.

Lemma screen_off_twice_then_on_witness :
  c_string (out_buffer (read_max_freq k_max_freq_file initial_state))
    = Some (chars (nl "912000")) /\
  c_string (out_buffer (read_max_freq k_max_freq_file st_screen_off))
    = Some (chars (nl "696000")) /\
  exists st4 st5 t,
    sun4i_power_set_interactive k_max_freq_file TheModule 0 st_screen_off
      = Done tt st4 /\
    sun4i_power_set_interactive k_max_freq_file TheModule 1 st4
      = Done tt st5 /\
    trace st5 = trace st4 ++ t /\
    attr_write SCALINGMAXFREQ (chars (nl "912000")) t.
Proof.
  split; [reflexivity|]. split; [reflexivity|].
  apply (screen_off_twice_then_on k_max_freq_file TheModule 1 initial_state
           (final (read_max_freq k_max_freq_file initial_state))
           st_screen_off
           (final (read_max_freq k_max_freq_file st_screen_off))
           (out_buffer (read_max_freq k_max_freq_file initial_state))
           (out_buffer (read_max_freq k_max_freq_file st_screen_off))
           (chars (nl "912000")) 0).
  - split; reflexivity.
  - reflexivity.
  - reflexivity.
  - reflexivity.
  - reflexivity.
  - reflexivity.
  - intros _. exists [LF]. reflexivity.
  - discriminate.
Defined.
